(** * GPAI assessment tool: the decision logic of [streamlit_app.py]

    The application is one Streamlit script.  Streamlit re-executes the
    script from top to bottom on every interaction; each input widget
    returns the value currently held by the browser session, [st.stop()]
    ends the execution, and an uncaught Python exception ends it as well.

    The script is embedded as a computation in a small monad: the state is
    the list of input widgets rendered so far, and a computation either
    returns a value, stops at one of the three [st.stop()] calls, or raises
    a Python exception.  The browser session (what the user has selected
    and typed) is an explicit argument.  Python strings are sequences of
    UTF-8 bytes. *)

From Stdlib Require Import String Ascii List ZArith Lia Bool.
From Stdlib Require Import DecimalString DecimalPos DecimalZ.
Import ListNotations.

Local Open Scope string_scope.
Local Open Scope list_scope.
Local Open Scope Z_scope.

(** ** Python built-ins used by the script *)

Module Py.

(** Exceptions the script can raise. *)
Inductive exn : Type :=
| KeyError (key : string)
| ValueError (literal : string)
| IndexError.

(** [s.split(sep)] for a separator of one character: never empty. *)
Fixpoint split (sep : ascii) (s : string) : list string :=
  match s with
  | EmptyString => [EmptyString]
  | String c r =>
      if Ascii.eqb c sep then EmptyString :: split sep r
      else match split sep r with
           | [] => [String c EmptyString]
           | f :: fs => String c f :: fs
           end
  end.

(** [l[0]] and [l[-1]]. *)
Definition first_item (l : list string) : exn + string :=
  match l with
  | [] => inl IndexError
  | x :: _ => inr x
  end.

Fixpoint last_item (l : list string) : exn + string :=
  match l with
  | [] => inl IndexError
  | [x] => inr x
  | _ :: r => last_item r
  end.

(** Whitespace that [int] strips: space, tab, line feed, vertical tab,
    form feed, carriage return. *)
Definition is_space (c : ascii) : bool :=
  let n := nat_of_ascii c in
  (Nat.eqb n 32 || (Nat.leb 9 n && Nat.leb n 13))%bool.

Fixpoint lstrip (s : string) : string :=
  match s with
  | EmptyString => EmptyString
  | String c r => if is_space c then lstrip r else s
  end.

Fixpoint rev_string (s acc : string) : string :=
  match s with
  | EmptyString => acc
  | String c r => rev_string r (String c acc)
  end.

Definition strip (s : string) : string :=
  rev_string (lstrip (rev_string (lstrip s) EmptyString)) EmptyString.

Definition digit_val (c : ascii) : option Z :=
  let n := nat_of_ascii c in
  if (Nat.leb 48 n && Nat.leb n 57)%bool then Some (Z.of_nat (n - 48)) else None.

(** Decimal digits, single underscores allowed between two digits.
    [sep] tells that a digit must come next (start, or after [_]). *)
Fixpoint digits (s : string) (sep : bool) (acc : Z) : option Z :=
  match s with
  | EmptyString => if sep then None else Some acc
  | String c r =>
      if Ascii.eqb c "_"%char then
        if sep then None else digits r true acc
      else match digit_val c with
           | Some d => digits r false (10 * acc + d)
           | None => None
           end
  end.

(** The number of digits of a text, and the most [int] and [str]
    convert (the default of CPython 3.11; leading zeros count,
    underscores, sign and whitespace do not). *)
Fixpoint digit_count (s : string) : N :=
  match s with
  | EmptyString => 0%N
  | String c r =>
      match digit_val c with
      | Some _ => N.succ (digit_count r)
      | None => digit_count r
      end
  end.

Definition max_str_digits : N := 4300%N.

(** [int(s)] in base 10 on ASCII text: surrounding whitespace, an optional
    sign, then at most [max_str_digits] digits.  (Python also accepts the
    whitespace and the decimal digits of other scripts; no label of the
    script holds one, and the model rejects them.) *)
Definition int (s : string) : exn + Z :=
  let t := strip s in
  let r :=
    match t with
    | String c u =>
        if Ascii.eqb c "+"%char then digits u true 0
        else if Ascii.eqb c "-"%char then option_map Z.opp (digits u true 0)
        else digits t true 0
    | EmptyString => None
    end in
  match r with
  | Some z =>
      if (max_str_digits <? digit_count t)%N then inl (ValueError s) else inr z
  | None => inl (ValueError s)
  end.

(** [str(z)] for an integer of at most [max_str_digits] digits, as the
    scores of a report are (Python raises [ValueError] beyond). *)
Definition str_of_int (z : Z) : string :=
  NilZero.string_of_int (Z.to_int z).

(** A [dict] with string keys: insertion-ordered, keys unique. *)
Definition dict (V : Type) : Type := list (string * V).

Fixpoint dict_get {V} (d : dict V) (k : string) : option V :=
  match d with
  | [] => None
  | (k', v) :: r => if String.eqb k' k then Some v else dict_get r k
  end.

(** [d[k]]: raises [KeyError] when the key is absent. *)
Definition getitem {V} (d : dict V) (k : string) : exn + V :=
  match dict_get d k with
  | Some v => inr v
  | None => inl (KeyError k)
  end.

(** [d[k] = v]: an existing key keeps its position, a new one goes last. *)
Fixpoint setitem {V} (d : dict V) (k : string) (v : V) : dict V :=
  match d with
  | [] => [(k, v)]
  | (k', v') :: r =>
      if String.eqb k' k then (k', v) :: r else (k', v') :: setitem r k v
  end.

Definition keys {V} (d : dict V) : list string := map fst d.
Definition values {V} (d : dict V) : list V := map snd d.

(** Values stored in the report: text or integer. *)
Inductive value : Type :=
| Str (s : string)
| Int (z : Z).

(** [str(v)], the text pandas writes for a cell. *)
Definition str (v : value) : string :=
  match v with
  | Str s => s
  | Int z => str_of_int z
  end.

End Py.

(** ** The Streamlit session and the script monad *)

Module St.

(** What the browser session holds.  A widget is identified by its [key]
    argument when it has one and by its label otherwise. *)
Record session : Type := {
  radio_choice : string -> string;
  text_value : string -> string;
  button_clicked : string -> bool
}.

(** Input elements rendered on the page, in order.  Static text
    ([st.markdown], [st.info], ...) is not recorded. *)
Inductive element : Type :=
| Radio (id : string) (options : list string)
| TextArea (label : string)
| TextInput (label : string)
| Button (label : string)
| DownloadButton (label data file_name mime : string).

(** The three [st.stop()] calls of the script. *)
Inductive terminal : Type :=
| OutOfScope
| NotProvider
| BelowThreshold.

Inductive halt : Type :=
| Stopped (t : terminal)
| Raised (e : Py.exn).

Definition page : Type := list element.

Definition M (A : Type) : Type := page -> page * (halt + A).

Definition ret {A} (a : A) : M A := fun p => (p, inr a).

Definition bind {A B} (m : M A) (f : A -> M B) : M B :=
  fun p =>
    match m p with
    | (p', inr a) => f a p'
    | (p', inl h) => (p', inl h)
    end.

Definition stop {A} (t : terminal) : M A := fun p => (p, inl (Stopped t)).

(** Lifts a Python operation that may raise. *)
Definition py {A} (r : Py.exn + A) : M A :=
  fun p =>
    match r with
    | inr a => (p, inr a)
    | inl e => (p, inl (Raised e))
    end.

Definition render (e : element) : M unit := fun p => (p ++ [e], inr tt).

(** [for x in items: ...] threading the variables the body assigns. *)
Fixpoint for_each {A S} (items : list A) (body : A -> S -> M S) (s : S) : M S :=
  match items with
  | [] => ret s
  | x :: r => bind (body x s) (for_each r body)
  end.

End St.

Import St.

Declare Scope script_scope.
Delimit Scope script_scope with script.
Notation "x <- c ;; k" := (bind c (fun x => k))
  (at level 100, c at next level, right associativity) : script_scope.
Notation "' pat <- c ;; k" := (bind c (fun x => match x with pat => k end))
  (at level 100, pat pattern, c at next level, right associativity) : script_scope.
Notation "c ;; k" := (bind c (fun _ => k))
  (at level 100, right associativity) : script_scope.
Local Open Scope script_scope.

(** ** The export library

    The report is exported with [pandas.DataFrame.to_csv].  pandas and
    the [csv] module it writes through are libraries, not code of the
    application; the two modules below model the part of them the script
    uses.  [to_csv] hands the header and every row to a [csv.writer] set
    to the default dialect: a comma as delimiter, the double quote as
    quote character, quotes doubled inside a quoted field, minimal
    quoting, and the line terminator of the platform, taken here to be a
    line feed.  Under minimal quoting CPython 3.11 quotes a field that
    holds the delimiter, the quote character or a character of the line
    terminator; a carriage return alone is written as it is. *)

Module Csv.

Definition delimiter : ascii := ","%char.
Definition quotechar : ascii := "034"%char.
Definition lineterminator : ascii := "010"%char.

Definition is_special (c : ascii) : bool :=
  (Ascii.eqb c delimiter || Ascii.eqb c quotechar || Ascii.eqb c lineterminator)%bool.

(** Minimal quoting: a field is quoted when it holds the delimiter, the
    quote character or a character of the line terminator. *)
Fixpoint needs_quotes (s : string) : bool :=
  match s with
  | EmptyString => false
  | String c r => (is_special c || needs_quotes r)%bool
  end.

Fixpoint double_quotes (s : string) : string :=
  match s with
  | EmptyString => EmptyString
  | String c r =>
      if Ascii.eqb c quotechar
      then String quotechar (String quotechar (double_quotes r))
      else String c (double_quotes r)
  end.

Definition quoted (s : string) : string :=
  String quotechar (double_quotes s ++ String quotechar EmptyString)%string.

Definition write_field (s : string) : string :=
  if needs_quotes s then quoted s else s.

(** [writer.writerow(fields)]; a row made of one empty field is written
    as a quoted empty field. *)
Definition writerow (fields : list string) : string :=
  match fields with
  | [EmptyString] => (quoted EmptyString ++ String lineterminator EmptyString)%string
  | _ =>
      (String.concat (String delimiter EmptyString) (map write_field fields)
         ++ String lineterminator EmptyString)%string
  end.

Fixpoint writerows (rows : list (list string)) : string :=
  match rows with
  | [] => EmptyString
  | r :: rs => (writerow r ++ writerows rs)%string
  end.

(** *** Reference reader for the same dialect

    The reader is the yardstick for what a cell of the written text
    holds: fields are separated by the delimiter, records end with the
    line terminator, a field that starts with the quote character runs
    to its closing quote, and a doubled quote inside it stands for one.
    It is not part of the application. *)

Inductive mode : Type :=
| FieldStart
| Unquoted
| Quoted
| QuoteSeen.

Definition row_tail : Type := string * list string * list (list string).

Definition push_char (c : ascii) (t : option row_tail) : option row_tail :=
  match t with
  | Some (f, fs, rows) => Some (String c f, fs, rows)
  | None => None
  end.

Definition push_string (s : string) (t : option row_tail) : option row_tail :=
  match t with
  | Some (f, fs, rows) => Some ((s ++ f)%string, fs, rows)
  | None => None
  end.

Definition end_field (t : option row_tail) : option row_tail :=
  match t with
  | Some (f, fs, rows) => Some (EmptyString, f :: fs, rows)
  | None => None
  end.

Definition end_row (s : string) (t : option row_tail) : option row_tail :=
  match s with
  | EmptyString => Some (EmptyString, [], [])
  | _ =>
      match t with
      | Some (f, fs, rows) => Some (EmptyString, [], (f :: fs) :: rows)
      | None => None
      end
  end.

(** Reads from inside a record: the rest of the current field, the
    remaining fields of the record, and the records after it. *)
Fixpoint read_from (m : mode) (s : string) : option row_tail :=
  match s with
  | EmptyString => None
  | String c r =>
      match m with
      | FieldStart =>
          if Ascii.eqb c quotechar then read_from Quoted r
          else if Ascii.eqb c delimiter then end_field (read_from FieldStart r)
          else if Ascii.eqb c lineterminator then end_row r (read_from FieldStart r)
          else push_char c (read_from Unquoted r)
      | Unquoted =>
          if Ascii.eqb c delimiter then end_field (read_from FieldStart r)
          else if Ascii.eqb c lineterminator then end_row r (read_from FieldStart r)
          else push_char c (read_from Unquoted r)
      | Quoted =>
          if Ascii.eqb c quotechar then read_from QuoteSeen r
          else push_char c (read_from Quoted r)
      | QuoteSeen =>
          if Ascii.eqb c quotechar then push_char c (read_from Quoted r)
          else if Ascii.eqb c delimiter then end_field (read_from FieldStart r)
          else if Ascii.eqb c lineterminator then end_row r (read_from FieldStart r)
          else None
      end
  end.

(** A field ends where a delimiter or a line terminator starts. *)
Definition field_end (s : string) : Prop :=
  exists r, s = String delimiter r \/ s = String lineterminator r.

Definition reader (s : string) : option (list (list string)) :=
  match s with
  | EmptyString => Some []
  | _ =>
      match read_from FieldStart s with
      | Some (f, fs, rows) => Some ((f :: fs) :: rows)
      | None => None
      end
  end.

End Csv.

Module Pd.

Record frame : Type := {
  columns : list string;
  rows : list (list Py.value)
}.

(** [pd.DataFrame(records)] for records that share their keys, as the
    single record the script passes: one column per key, in key order,
    one row per record. *)
Definition DataFrame (records : list (Py.dict Py.value)) : frame :=
  {| columns := match records with
                | [] => []
                | d :: _ => Py.keys d
                end;
     rows := map Py.values records |}.

(** [df.to_csv(buffer, index=False)]: the header, then the rows. *)
Definition to_csv (df : frame) : string :=
  (Csv.writerow (columns df)
     ++ Csv.writerows (map (map Py.str) (rows df)))%string.

End Pd.

(** ** The script *)

Section Script.

Variable sess : session.

Definition widget_id (label : string) (key : option string) : string :=
  match key with
  | Some k => k
  | None => label
  end.

(** [st.radio(label, options, key=key)] *)
Definition radio (label : string) (options : list string) (key : option string)
  : M string :=
  render (Radio (widget_id label key) options) ;;
  ret (radio_choice sess (widget_id label key)).

(** [st.text_area(label)] and [st.text_input(label)] *)
Definition text_area (label : string) : M string :=
  render (TextArea label) ;; ret (text_value sess label).

Definition text_input (label : string) : M string :=
  render (TextInput label) ;; ret (text_value sess label).

(** [st.button(label)] *)
Definition button (label : string) : M bool :=
  render (Button label) ;; ret (button_clicked sess label).

(** *** Provider context (lines 35-57) *)

Definition provider_type_options : list string :=
  [ "Large commercial provider";
    "SME or startup";
    "Academic or non-commercial research entity";
    "Public sector / other" ].

Definition provider_type_label : string :=
  "Select your organizational context".

Definition provider_context_label : string :=
  "If you plan to adjust or scale obligations, explain how your context justifies it (Recital 109).".

Definition provider_context : M (string * string) :=
  provider_type <- radio provider_type_label provider_type_options None ;;
  provider_context_justification <- text_area provider_context_label ;;
  ret (provider_type, provider_context_justification).

(** *** Step 1: specialization gate (lines 71-79) *)

Definition specialized_label : string :=
  "Does your model appear entirely specialized (no broad or flexible capabilities)?".

Definition specialized_options : list string :=
  [ "Yes (Specialized/Narrow)"; "No (Potentially General-Purpose)" ].

Definition step1 : M string :=
  specialized_radio <-
    radio specialized_label specialized_options (Some "specialized_radio") ;;
  if String.eqb specialized_radio "Yes (Specialized/Narrow)"
  then stop OutOfScope
  else ret specialized_radio.

(** *** Step 2: provider gate (lines 87-125) *)

Definition developed_label : string :=
  "Did you develop the model internally, or is it from a third party?".

Definition developed_options : list string :=
  [ "Internally Developed"; "Third Party" ].

Definition substantial_mod_questions : Py.dict (string * string * string) :=
  [ ("param_change",
      ("Have you changed >10% of parameters or model architecture?", "Yes", "No"));
    ("purpose_change",
      ("Is the intended purpose or functionality significantly changed?", "Yes", "No"));
    ("data_change",
      ("Have you retrained on distinctly different data (extensive fine-tuning)?", "Yes", "No"));
    ("integration_change",
      ("Does modification significantly alter downstream integration?", "Yes", "No")) ].

(** The loop of lines 109-113; returns [substantial_mod]. *)
Definition substantial_mod_loop : M bool :=
  for_each substantial_mod_questions
    (fun '(key, (question, yes_label, no_label)) substantial_mod =>
       answer <- radio question [yes_label; no_label] (Some ("mod_" ++ key)%string) ;;
       ret (if String.eqb answer "Yes" then true else substantial_mod))
    false.

(** Returns [substantial_mod] when the sub-check ran, [None] otherwise. *)
Definition step2 : M (option bool) :=
  developed_internally <- radio developed_label developed_options None ;;
  if String.eqb developed_internally "Third Party" then
    substantial_mod <- substantial_mod_loop ;;
    if negb substantial_mod then stop NotProvider
    else ret (Some substantial_mod)
  else ret None.

(** *** Step 3: preliminary scoring (lines 139-181) *)

Definition preliminary_questions : Py.dict (string * list string) :=
  [ ("param_scale",
      ("Approximate parameter count (Recital 98, threshold ~1B)?",
       ["< 1B"; "1B–10B"; "> 10B"]));
    ("training_scope",
      ("Was the model trained on large, diverse datasets using self-supervised or unsupervised methods?",
       ["No"; "Partly"; "Yes"]));
    ("broad_ability",
      ("Does it perform competently on multiple distinct tasks or domains?",
       ["No"; "Partly"; "Yes"]));
    ("generative_cap",
      ("Does it generate adaptable content (text, images, code) across tasks?",
       ["No"; "Partly"; "Yes"])) ].

Definition param_scale_score_map : Py.dict Z :=
  [ ("< 1B", 0); ("1B–10B", 1); ("> 10B", 2) ].

Definition yes_partly_no_map : Py.dict Z :=
  [ ("No", 0); ("Partly", 1); ("Yes", 2) ].

(** The body of the loop of lines 163-171, on the values of
    [prelim_score] and [responses_step3]. *)
Definition prelim_body (item : string * (string * list string))
  (vars : Z * Py.dict string) : M (Z * Py.dict string) :=
  let '(key, (question, options)) := item in
  let '(prelim_score, responses_step3) := vars in
  user_choice <- radio question options (Some ("prelim_" ++ key)%string) ;;
  let responses_step3 := Py.setitem responses_step3 key user_choice in
  points <-
    (if String.eqb key "param_scale"
     then py (Py.getitem param_scale_score_map user_choice)
     else py (Py.getitem yes_partly_no_map user_choice)) ;;
  ret (prelim_score + points, responses_step3).

Definition prelim_loop (questions : Py.dict (string * list string))
  : Z * Py.dict string -> M (Z * Py.dict string) :=
  for_each questions prelim_body.

Definition step3 : M (Z * Py.dict string) :=
  '(prelim_score, responses_step3) <- prelim_loop preliminary_questions (0, []) ;;
  if prelim_score <? 3 then stop BelowThreshold
  else ret (prelim_score, responses_step3).

(** *** Step 4: baseline obligations (lines 199-226) *)

Definition baseline_obligations : Py.dict (string * list string) :=
  [ ("tech_doc",
      ("Technical documentation (Article 53(1)(a)): Do you have detailed documentation of training and evaluation?",
       ["Not in place (0)"; "Partially in place (1)"; "Fully in place (2)"]));
    ("instructions",
      ("Downstream usage instructions and disclosures (Article 53(1)(b)): Provided to end-users?",
       ["0 - None"; "1 - Some partial instructions"; "2 - Comprehensive guidelines"]));
    ("copyright",
      ("Copyright compliance policy (Article 53(1)(c)): Ensuring lawful use of data, references, etc.?",
       ["0 - None"; "1 - Partial policy"; "2 - Fully documented policy"]));
    ("data_summary",
      ("Public summary of training data (Article 53(1)(d)): Published or available?",
       ["0 - Not published"; "1 - Partially available"; "2 - Comprehensive summary"])) ].

(** [int(user_choice.split("(")[-1].split(")")[0])] (line 225) *)
Definition numeric_val (user_choice : string) : Py.exn + Z :=
  match Py.last_item (Py.split "("%char user_choice) with
  | inl e => inl e
  | inr tail =>
      match Py.first_item (Py.split ")"%char tail) with
      | inl e => inl e
      | inr inner => Py.int inner
      end
  end.

(** The body of the loop of lines 220-226, on the values of
    [baseline_score] and [obligation_responses]. *)
Definition baseline_body (item : string * (string * list string))
  (vars : Z * Py.dict string) : M (Z * Py.dict string) :=
  let '(key, (question, options)) := item in
  let '(baseline_score, obligation_responses) := vars in
  user_choice <- radio question options (Some ("obligation_" ++ key)%string) ;;
  let obligation_responses := Py.setitem obligation_responses key user_choice in
  n <- py (numeric_val user_choice) ;;
  ret (baseline_score + n, obligation_responses).

Definition baseline_loop (obligations : Py.dict (string * list string))
  : Z * Py.dict string -> M (Z * Py.dict string) :=
  for_each obligations baseline_body.

Definition step4 : M (Z * Py.dict string) :=
  baseline_loop baseline_obligations (0, []).

(** *** Step 5: systemic risk (lines 243-286) *)

Definition systemic_questions : Py.dict (string * list string) :=
  [ ("flop_threshold",
      ("Did training exceed ~10^25 FLOPs? (Article 51(2))", ["No"; "Yes"]));
    ("sota_advancement",
      ("Is the model near state-of-the-art or has an equivalent high impact? (Article 51(1))",
       ["No"; "Yes"]));
    ("mass_deployment",
      ("Is/will the model be widely deployed or integrated, potentially influencing large-scale users?",
       ["No"; "Yes"]));
    ("harmful_scaffolding",
      ("Could the model significantly enable harmful applications via generative or scaffolding features?",
       ["No"; "Yes"])) ].

Definition yes_no_map : Py.dict Z :=
  [ ("No", 0); ("Yes", 1) ].

(** The body of the loop of lines 266-269, on the values of
    [systemic_score] and [systemic_responses]. *)
Definition systemic_body (item : string * (string * list string))
  (vars : Z * Py.dict string) : M (Z * Py.dict string) :=
  let '(key, (question, options)) := item in
  let '(systemic_score, systemic_responses) := vars in
  user_choice <- radio question options (Some ("sys_" ++ key)%string) ;;
  let systemic_responses := Py.setitem systemic_responses key user_choice in
  points <- py (Py.getitem yes_no_map user_choice) ;;
  ret (systemic_score + points, systemic_responses).

Definition systemic_loop (questions : Py.dict (string * list string))
  : Z * Py.dict string -> M (Z * Py.dict string) :=
  for_each questions systemic_body.

Definition final_risk_label : string :=
  "Make a final classification on systemic risk (Article 51):".

Definition final_risk_options : list string :=
  [ "Yes - High Impact/Systemic"; "No - Not Systemic" ].

(** Lines 272-286, from the values of [systemic_score] and
    [systemic_responses]; returns [systemic_classification]. *)
Definition classify_systemic (systemic_score : Z) (systemic_responses : Py.dict string)
  : M string :=
  flop <- py (Py.getitem systemic_responses "flop_threshold") ;;
  threshold_met <-
    (if String.eqb flop "Yes" then ret true
     else sota <- py (Py.getitem systemic_responses "sota_advancement") ;;
          ret (String.eqb sota "Yes")) ;;
  if threshold_met : bool then ret "Yes"
  else if systemic_score >? 1 then
    final_risk_decision <-
      radio final_risk_label final_risk_options (Some "borderline_sysrisk") ;;
    if String.eqb final_risk_decision "Yes - High Impact/Systemic"
    then ret "Yes"
    else ret "No"
  else ret "No".

Definition step5 : M (Z * Py.dict string * string) :=
  '(systemic_score, systemic_responses) <- systemic_loop systemic_questions (0, []) ;;
  systemic_classification <- classify_systemic systemic_score systemic_responses ;;
  ret (systemic_score, systemic_responses, systemic_classification).

(** *** Step 6: aggregation (lines 295-321)

    The messages of lines 298-307 and 317 display the scores, the
    systemic classification and the status; they feed nothing back. *)

Definition compliant_text : string :=
  "Compliant or Mostly Compliant with Baseline GPAI Obligations".

Definition provisional_text : string :=
  "Provisionally Compliant (Some Gaps)".

Definition non_compliant_text : string :=
  "Non-Compliant / High Risk (Insufficient Baseline) - Remediation Needed".

Definition remediation_label : string :=
  "Justification / Remediation Plan:".

(** Lines 310-315. *)
Definition compliance_of (overall_score : Z) : string :=
  if overall_score >=? 12 then compliant_text
  else if overall_score >=? 8 then provisional_text
  else non_compliant_text.

(** Returns [overall_score], [compliance_status] and [user_remediation]
    (which stays unassigned when the status is the compliant one). *)
Definition step6 (prelim_score baseline_score : Z)
  : M (Z * string * option string) :=
  let overall_score := prelim_score + baseline_score in
  let compliance_status := compliance_of overall_score in
  if existsb (String.eqb compliance_status) [provisional_text; non_compliant_text]
  then user_remediation <- text_area remediation_label ;;
       ret (overall_score, compliance_status, Some user_remediation)
  else ret (overall_score, compliance_status, None).

(** *** Step 7: report and export (lines 339-375) *)

(** [for k, v in responses.items(): report_data[prefix + k] = v] *)
Definition merge_responses (prefix : string) (responses : Py.dict string)
  (report_data : Py.dict Py.value) : Py.dict Py.value :=
  fold_left
    (fun report '(k, v) => Py.setitem report (prefix ++ k)%string (Py.Str v))
    responses report_data.

(** Lines 339-355: the report before the two identity fields. *)
Definition report_base
  (provider_type provider_context_justification specialized_radio : string)
  (prelim_score baseline_score : Z)
  (systemic_classification compliance_status : string)
  (responses_step3 obligation_responses systemic_responses : Py.dict string)
  : Py.dict Py.value :=
  let report_data :=
    [ ("Provider Type (Recital 109)", Py.Str provider_type);
      ("Provider Justification", Py.Str provider_context_justification);
      ("Specialized Model Step1", Py.Str specialized_radio);
      ("Preliminary Score", Py.Int prelim_score);
      ("Baseline Score", Py.Int baseline_score);
      ("Systemic Risk? (Article 51)", Py.Str systemic_classification);
      ("Overall Compliance Status", Py.Str compliance_status) ] in
  let report_data := merge_responses "Step3_" responses_step3 report_data in
  let report_data := merge_responses "Step4_" obligation_responses report_data in
  merge_responses "Step5_" systemic_responses report_data.

Definition model_name_label : string := "Model Name/Identifier".
Definition provider_name_label : string := "Provider Name/Entity".
Definition generate_label : string := "Generate & Download Report".

(** Lines 358-375, from the report assembled so far; returns the final
    [report_data]. *)
Definition export (report_data : Py.dict Py.value) : M (Py.dict Py.value) :=
  model_name <- text_input model_name_label ;;
  let report_data := Py.setitem report_data "Model Name" (Py.Str model_name) in
  provider_name <- text_input provider_name_label ;;
  let report_data := Py.setitem report_data "Provider Name" (Py.Str provider_name) in
  clicked <- button generate_label ;;
  (if clicked : bool then
     let df_report := Pd.DataFrame [report_data] in
     let buffer := Pd.to_csv df_report in
     render (DownloadButton "Download Assessment CSV" buffer
               ("GPAI_Assessment_" ++ model_name ++ ".csv")%string "text/csv")
   else ret tt) ;;
  ret report_data.

Definition step7
  (provider_type provider_context_justification specialized_radio : string)
  (prelim_score baseline_score : Z)
  (systemic_classification compliance_status : string)
  (responses_step3 obligation_responses systemic_responses : Py.dict string)
  : M (Py.dict Py.value) :=
  export (report_base provider_type provider_context_justification
            specialized_radio prelim_score baseline_score
            systemic_classification compliance_status
            responses_step3 obligation_responses systemic_responses).

(** *** The whole script *)

Definition script : M (Py.dict Py.value) :=
  '(provider_type, provider_context_justification) <- provider_context ;;
  specialized_radio <- step1 ;;
  step2 ;;
  '(prelim_score, responses_step3) <- step3 ;;
  '(baseline_score, obligation_responses) <- step4 ;;
  '(systemic_score, systemic_responses, systemic_classification) <- step5 ;;
  '(overall_score, compliance_status, user_remediation) <-
    step6 prelim_score baseline_score ;;
  step7 provider_type provider_context_justification specialized_radio
    prelim_score baseline_score systemic_classification compliance_status
    responses_step3 obligation_responses systemic_responses.

End Script.

(** One execution of the script on a fresh page. *)
Definition run (sess : session) : page * (halt + Py.dict Py.value) :=
  script sess [].

(** ** Vocabulary of the statements *)

(** The radios a loop over a dictionary of questions renders, and the
    responses it records. *)
Definition radios (prefix : string) (questions : Py.dict (string * list string))
  : page :=
  map (fun '(key, (_, options)) => Radio (prefix ++ key)%string options) questions.

Definition responses (sess : session) (prefix : string)
  (questions : Py.dict (string * list string)) : Py.dict string :=
  map (fun '(key, _) => (key, radio_choice sess (prefix ++ key)%string)) questions.

(** Every selection is one of the options declared for its question. *)
Definition selects_declared (sess : session) (prefix : string)
  (questions : Py.dict (string * list string)) : Prop :=
  Forall (fun '(key, (_, options)) =>
            In (radio_choice sess (prefix ++ key)%string) options)
         questions.

(** The page up to the specialization gate. *)
Definition intro_page : page :=
  [ Radio provider_type_label provider_type_options;
    TextArea provider_context_label;
    Radio "specialized_radio" specialized_options ].

(** The substantial-modification sub-questions. *)
Definition mod_answers (sess : session) : list string :=
  map (fun key => radio_choice sess ("mod_" ++ key)%string)
      (Py.keys substantial_mod_questions).

Definition mod_page : page :=
  map (fun '(key, (_, yes_label, no_label)) =>
         Radio ("mod_" ++ key)%string [yes_label; no_label])
      substantial_mod_questions.

(** Point values as the specification words them. *)
Definition spec_param_scale_points (a : string) : Z :=
  if String.eqb a "< 1B" then 0
  else if String.eqb a "1B–10B" then 1
  else if String.eqb a "> 10B" then 2
  else 0.

Definition spec_no_partly_yes_points (a : string) : Z :=
  if String.eqb a "No" then 0
  else if String.eqb a "Partly" then 1
  else if String.eqb a "Yes" then 2
  else 0.

Definition spec_preliminary_score (sess : session) : Z :=
  spec_param_scale_points (radio_choice sess "prelim_param_scale")
  + spec_no_partly_yes_points (radio_choice sess "prelim_training_scope")
  + spec_no_partly_yes_points (radio_choice sess "prelim_broad_ability")
  + spec_no_partly_yes_points (radio_choice sess "prelim_generative_cap").

(** The two ways past the provider gate. *)
Definition passes_provider_gate (sess : session) : Prop :=
  radio_choice sess developed_label = "Internally Developed"
  \/ (radio_choice sess developed_label = "Third Party"
      /\ Exists (fun a => a = "Yes") (mod_answers sess)).

(** The systemic score as the specification words it: the number of
    affirmative answers among the four systemic questions. *)
Definition affirmative (a : string) : Z :=
  if String.eqb a "Yes" then 1 else 0.

Definition spec_systemic_score (sess : session) : Z :=
  affirmative (radio_choice sess "sys_flop_threshold")
  + affirmative (radio_choice sess "sys_sota_advancement")
  + affirmative (radio_choice sess "sys_mass_deployment")
  + affirmative (radio_choice sess "sys_harmful_scaffolding").

(** The manual override question. *)
Definition override_page : page :=
  [ Radio "borderline_sysrisk" final_risk_options ].

(** Values the score variables take: [prelim_score] and [baseline_score]
    after any number of iterations of their loops, and [overall_score] as
    step 6 computes it from two such values. *)
Definition prelim_score_value (sess : session) (p : Z) : Prop :=
  exists n ui ui' r,
    prelim_loop sess (firstn n preliminary_questions) (0, []) ui = (ui', inr (p, r)).

Definition baseline_score_value (sess : session) (b : Z) : Prop :=
  exists n ui ui' r,
    baseline_loop sess (firstn n baseline_obligations) (0, []) ui = (ui', inr (b, r)).

Definition overall_score_value (sess : session) (o : Z) : Prop :=
  exists p b ui ui' status remediation,
    prelim_score_value sess p /\ baseline_score_value sess b
    /\ step6 sess p b ui = (ui', inr (o, status, remediation)).

(** Steps 3 to 6 in the order of the script (lines 139-321). *)
Definition assessment (sess : session) : M (Z * string * string) :=
  '(prelim_score, responses_step3) <- step3 sess ;;
  '(baseline_score, obligation_responses) <- step4 sess ;;
  '(systemic_score, systemic_responses, systemic_classification) <- step5 sess ;;
  '(overall_score, compliance_status, user_remediation) <-
    step6 sess prelim_score baseline_score ;;
  ret (overall_score, compliance_status, systemic_classification).

(** What an observer of the scores sees of an outcome: the overall score
    and the compliance status, or how the execution halted. *)
Definition score_view {A B C} (r : page * (halt + A * B * C)) : halt + A * B :=
  match snd r with
  | inl h => inl h
  | inr (o, c, _) => inr (o, c)
  end.

(** Two sessions hold the same selection in each of the listed radios. *)
Definition agree_on (s1 s2 : session) (ids : list string) : Prop :=
  Forall (fun id => radio_choice s1 id = radio_choice s2 id) ids.

Definition widget_ids (prefix : string) (questions : Py.dict (string * list string))
  : list string :=
  map (fun key => (prefix ++ key)%string) (Py.keys questions).

Definition scoring_ids : list string :=
  widget_ids "prelim_" preliminary_questions
  ++ widget_ids "obligation_" baseline_obligations.

Definition systemic_ids : list string :=
  widget_ids "sys_" systemic_questions ++ ["borderline_sysrisk"].

(** Two outcomes halt in the same way or return related values. *)
Definition related {A} (R : A -> A -> Prop) (x y : halt + A) : Prop :=
  match x, y with
  | inl h1, inl h2 => h1 = h2
  | inr a, inr b => R a b
  | _, _ => False
  end.

(** The widgets of the export step, with the download button when the
    report is generated. *)
Definition export_page (sess : session) (buffer : string) : page :=
  [ TextInput model_name_label;
    TextInput provider_name_label;
    Button generate_label;
    DownloadButton "Download Assessment CSV" buffer
      ("GPAI_Assessment_" ++ text_value sess model_name_label ++ ".csv")%string
      "text/csv" ].

(** Column [i] of the table is headed [k] and holds [cell] in its row. *)
Definition cell_at (table : list (list string)) (k cell : string) : Prop :=
  exists header row i,
    table = [header; row]
    /\ nth_error header i = Some k /\ nth_error row i = Some cell.

(** The outcome and the page of a whole execution on declared options,
    read off the answers. *)
Definition not_provider (sess : session) : bool :=
  (String.eqb (radio_choice sess developed_label) "Third Party"
   && negb (existsb (fun a => String.eqb a "Yes") (mod_answers sess)))%bool.

Definition provider_page (sess : session) : page :=
  Radio developed_label developed_options
  :: (if String.eqb (radio_choice sess developed_label) "Third Party"
      then mod_page else []).

Definition expected_run (sess : session) : page * halt :=
  if String.eqb (radio_choice sess "specialized_radio") "Yes (Specialized/Narrow)"
  then (intro_page, Stopped OutOfScope)
  else if not_provider sess
  then (intro_page ++ provider_page sess, Stopped NotProvider)
  else if spec_preliminary_score sess <? 3
  then (intro_page ++ provider_page sess ++ radios "prelim_" preliminary_questions,
        Stopped BelowThreshold)
  else (intro_page ++ provider_page sess ++ radios "prelim_" preliminary_questions
          ++ firstn 2 (radios "obligation_" baseline_obligations),
        Raised (Py.ValueError (radio_choice sess "obligation_instructions"))).

(** The number of Yes selections among the questions of a dictionary. *)
Fixpoint yes_count (sess : session) (prefix : string)
  (questions : Py.dict (string * list string)) : Z :=
  match questions with
  | [] => 0
  | (key, _) :: rest =>
      affirmative (radio_choice sess (prefix ++ key)%string)
      + yes_count sess prefix rest
  end.

(** The character occurs in the text. *)
Fixpoint contains (c : ascii) (s : string) : bool :=
  match s with
  | EmptyString => false
  | String x r => (Ascii.eqb x c || contains c r)%bool
  end.

(** No character of the text is whitespace for [int]. *)
Fixpoint spaceless (s : string) : bool :=
  match s with
  | EmptyString => true
  | String x r => (negb (Py.is_space x) && spaceless r)%bool
  end.

(** ** Sample sessions *)

(** A session given by its selections, listed by widget; every other
    radio holds [other], every text widget [text]. *)
Definition session_of (choices : Py.dict string) (other text : string)
  (clicked : bool) : session :=
  {| radio_choice := fun id =>
       match Py.dict_get choices id with
       | Some a => a
       | None => other
       end;
     text_value := fun _ => text;
     button_clicked := fun _ => clicked |}.

Definition specialized_session : session :=
  session_of [("specialized_radio", "Yes (Specialized/Narrow)")]
    "Yes" "free text" true.

Definition no_modification_session : session :=
  session_of [ ("specialized_radio", "No (Potentially General-Purpose)");
               (developed_label, "Third Party") ]
    "No" "free text" true.

Definition modified_session : session :=
  session_of [ ("specialized_radio", "No (Potentially General-Purpose)");
               (developed_label, "Third Party");
               ("mod_data_change", "Yes") ]
    "No" "free text" true.

(** Internally developed, preliminary score 0. *)
Definition small_model_session : session :=
  session_of [ ("specialized_radio", "No (Potentially General-Purpose)");
               (developed_label, "Internally Developed");
               ("prelim_param_scale", "< 1B") ]
    "No" "free text" true.

(** Internally developed, preliminary score 5, first option of every
    obligation question. *)
Definition large_model_session : session :=
  session_of [ ("specialized_radio", "No (Potentially General-Purpose)");
               (developed_label, "Internally Developed");
               ("prelim_param_scale", "1B–10B");
               ("prelim_training_scope", "Yes");
               ("prelim_broad_ability", "Partly");
               ("prelim_generative_cap", "Partly");
               ("obligation_tech_doc", "Fully in place (2)");
               ("obligation_instructions", "0 - None");
               ("obligation_copyright", "0 - None");
               ("obligation_data_summary", "0 - Not published") ]
    "No" "free text" true.

(** Two indicators but neither threshold: the override is asked. *)
Definition borderline_session (decision : string) : session :=
  session_of [ ("sys_mass_deployment", "Yes");
               ("sys_harmful_scaffolding", "Yes");
               ("borderline_sysrisk", decision) ]
    "No" "free text" true.

Definition over_threshold_session : session :=
  session_of [ ("sys_flop_threshold", "Yes");
               ("borderline_sysrisk", "No - Not Systemic") ]
    "No" "free text" true.

Definition single_indicator_session : session :=
  session_of [ ("sys_mass_deployment", "Yes");
               ("borderline_sysrisk", "Yes - High Impact/Systemic") ]
    "No" "free text" true.

(** Same scoring answers as [large_model_session], everything else
    different. *)
Definition large_model_session' : session :=
  session_of [ ("specialized_radio", "No (Potentially General-Purpose)");
               (developed_label, "Third Party");
               ("mod_param_change", "Yes");
               ("prelim_param_scale", "1B–10B");
               ("prelim_training_scope", "Yes");
               ("prelim_broad_ability", "Partly");
               ("prelim_generative_cap", "Partly");
               ("obligation_tech_doc", "Fully in place (2)");
               ("obligation_instructions", "0 - None");
               ("obligation_copyright", "0 - None");
               ("obligation_data_summary", "0 - Not published");
               ("sys_mass_deployment", "No");
               ("sys_harmful_scaffolding", "No");
               ("borderline_sysrisk", "Yes - High Impact/Systemic") ]
    "Yes" "other text" false.

(** Same systemic answers as [borderline_session "No - Not Systemic"],
    everything else different. *)
Definition borderline_session' : session :=
  session_of [ ("sys_flop_threshold", "No");
               ("sys_sota_advancement", "No");
               ("sys_mass_deployment", "Yes");
               ("sys_harmful_scaffolding", "Yes");
               ("borderline_sysrisk", "No - Not Systemic") ]
    "Yes" "other text" false.

(** A session with a text of its own in every text widget. *)
Definition reporting_session : session :=
  {| radio_choice := fun _ => "No";
     text_value := fun label =>
       if String.eqb label model_name_label then "M-1"
       else if String.eqb label provider_name_label then "Acme"
       else if String.eqb label remediation_label then "Plan R"
       else "Small team";
     button_clicked := fun _ => true |}.

(** A report as step 7 assembles it. *)
Definition sample_report : Py.dict Py.value :=
  [ ("Provider Type (Recital 109)", Py.Str "SME or startup");
    ("Provider Justification", Py.Str "Small team");
    ("Specialized Model Step1", Py.Str "No (Potentially General-Purpose)");
    ("Preliminary Score", Py.Int 5);
    ("Baseline Score", Py.Int 4);
    ("Systemic Risk? (Article 51)", Py.Str "No");
    ("Overall Compliance Status", Py.Str provisional_text);
    ("Step3_param_scale", Py.Str "1B–10B");
    ("Step3_training_scope", Py.Str "Yes");
    ("Step3_broad_ability", Py.Str "Partly");
    ("Step3_generative_cap", Py.Str "Partly");
    ("Step4_tech_doc", Py.Str "Fully in place (2)");
    ("Step4_instructions", Py.Str "0 - None");
    ("Step4_copyright", Py.Str "1 - Partial policy");
    ("Step4_data_summary", Py.Str "1 - Partially available");
    ("Step5_flop_threshold", Py.Str "No");
    ("Step5_sota_advancement", Py.Str "No");
    ("Step5_mass_deployment", Py.Str "Yes");
    ("Step5_harmful_scaffolding", Py.Str "Yes");
    ("Model Name", Py.Str "M-1");
    ("Provider Name", Py.Str "Acme") ].

(** Records of responses with keys of their own. *)
Definition custom_step3 : Py.dict string :=
  [ ("Model Name", "a"); ("param_scale", "> 10B") ].

Definition custom_step4 : Py.dict string :=
  [ ("tech_doc", "Fully in place (2)") ].

Definition custom_step5 : Py.dict string :=
  [ ("param_scale", "Yes"); ("mass_deployment", "No") ].

(** A questionnaire of two questions of its own. *)
Definition custom_questions : Py.dict (string * list string) :=
  [ ("first", ("First question?", ["No"; "Yes"]));
    ("second", ("Second question?", ["No"; "Yes"; "Maybe"])) ].

Definition custom_session : session :=
  session_of [ ("sys_first", "Yes"); ("sys_second", "No");
               ("obligation_first", "Level (1)"); ("obligation_second", "2 - Full") ]
    "No" "free text" true.

(** * Properties *)

(** ** Evaluating the script *)

Ltac script_unfold :=
  unfold run, script, provider_context, step1, step2, substantial_mod_loop,
    step3, prelim_loop, prelim_body, step4, baseline_loop, baseline_body,
    step5, systemic_loop, systemic_body,
    classify_systemic, step6, step7, export,
    radio, text_area, text_input, button, widget_id.

Ltac monad_unfold := unfold bind, ret, render, stop, py.

Ltac evaluate := script_unfold; cbn; monad_unfold; cbn.

(** Replaces the selections that hypotheses fix by their values. *)
Ltac use_choices :=
  repeat match goal with
         | H : radio_choice _ _ = _ |- _ => rewrite H
         | H : _ = radio_choice _ _ |- _ => rewrite <- H
         end.

Ltac split_forall :=
  repeat match goal with
         | H : Forall _ (_ :: _) |- _ => inversion H; subst; clear H
         | H : Forall _ [] |- _ => clear H
         end.

Ltac split_in :=
  repeat match goal with
         | H : In _ (_ :: _) |- _ => destruct H as [H | H]
         | H : In _ [] |- _ => destruct H
         end.

(** Checks that a sample session selects declared options. *)
Ltac declared := unfold selects_declared; repeat constructor; cbn; tauto.

Lemma bind_value {A B} (m : M A) (f : A -> M B) p p' a :
  m p = (p', inr a) -> bind m f p = f a p'.
Proof. intros H. unfold bind. now rewrite H. Qed.

Lemma bind_halt {A B} (m : M A) (f : A -> M B) p p' h :
  m p = (p', inl h) -> bind m f p = (p', inl h).
Proof. intros H. unfold bind. now rewrite H. Qed.

(** ** Step 1: the specialization gate *)

Lemma step1_specialized sess ui :
  radio_choice sess "specialized_radio" = "Yes (Specialized/Narrow)" ->
  step1 sess ui
  = (ui ++ [Radio "specialized_radio" specialized_options], inl (Stopped OutOfScope)).
Proof. intros H. evaluate. now rewrite H. Qed.

Lemma step1_general sess ui :
  radio_choice sess "specialized_radio" <> "Yes (Specialized/Narrow)" ->
  step1 sess ui
  = (ui ++ [Radio "specialized_radio" specialized_options],
     inr (radio_choice sess "specialized_radio")).
Proof.
  intros H. evaluate.
  now destruct (String.eqb_spec (radio_choice sess "specialized_radio")
                  "Yes (Specialized/Narrow)").
Qed.

(** C5. When the specialization gate is answered affirmatively the run
    ends at the out-of-scope stop, whatever the other answers of the
    session are: the page holds the provider-context widgets and the gate
    question only, and the run yields neither a score nor a report. *)
Theorem specialized_model_is_out_of_scope (sess : session) :
  radio_choice sess "specialized_radio" = "Yes (Specialized/Narrow)" ->
  run sess = (intro_page, inl (Stopped OutOfScope)).
Proof.
  intros H. unfold run, script.
  rewrite (bind_value _ _ [] [Radio provider_type_label provider_type_options;
                              TextArea provider_context_label]
             (radio_choice sess provider_type_label,
              text_value sess provider_context_label)) by reflexivity.
  apply bind_halt. now apply step1_specialized.
Qed.

Lemma specialized_model_is_out_of_scope_witness :
  run specialized_session = (intro_page, inl (Stopped OutOfScope)).
Proof.
  apply specialized_model_is_out_of_scope. reflexivity.
Defined.

(** ** Step 2: the provider gate *)

Lemma substantial_mod_loop_page sess ui :
  fst (substantial_mod_loop sess ui) = ui ++ mod_page.
Proof. evaluate. now rewrite <- !app_assoc. Qed.

Lemma substantial_mod_loop_value sess ui :
  snd (substantial_mod_loop sess ui)
  = inr (existsb (fun a => String.eqb a "Yes") (mod_answers sess)).
Proof.
  evaluate. unfold mod_answers. cbn.
  repeat match goal with
         | |- context [String.eqb ?a "Yes"] =>
             lazymatch a with
             | radio_choice _ _ => destruct (String.eqb a "Yes")
             end
         end; reflexivity.
Qed.

Lemma substantial_mod_loop_eval sess ui :
  substantial_mod_loop sess ui
  = (ui ++ mod_page,
     inr (existsb (fun a => String.eqb a "Yes") (mod_answers sess))).
Proof.
  rewrite <- substantial_mod_loop_page with (sess := sess).
  rewrite <- substantial_mod_loop_value with (ui := ui).
  now destruct (substantial_mod_loop sess ui).
Qed.

Lemma all_no_not_yes (l : list string) :
  Forall (fun a => a = "No") l ->
  existsb (fun a => String.eqb a "Yes") l = false.
Proof.
  induction 1 as [| a l Ha _ IH]; [reflexivity |].
  cbn [existsb]. rewrite IH. now subst a.
Qed.

Lemma some_yes (l : list string) :
  Exists (fun a => a = "Yes") l ->
  existsb (fun a => String.eqb a "Yes") l = true.
Proof.
  induction 1 as [a l Ha | a l _ IH]; cbn [existsb].
  - subst a. reflexivity.
  - rewrite IH. apply orb_true_r.
Qed.

Lemma step2_eval sess ui :
  step2 sess ui
  = if String.eqb (radio_choice sess developed_label) "Third Party" then
      if existsb (fun a => String.eqb a "Yes") (mod_answers sess)
      then (ui ++ [Radio developed_label developed_options] ++ mod_page,
            inr (Some true))
      else (ui ++ [Radio developed_label developed_options] ++ mod_page,
            inl (Stopped NotProvider))
    else (ui ++ [Radio developed_label developed_options], inr None).
Proof.
  unfold step2.
  rewrite (bind_value _ _ ui (ui ++ [Radio developed_label developed_options])
             (radio_choice sess developed_label)) by reflexivity.
  destruct (String.eqb (radio_choice sess developed_label) "Third Party");
    [| reflexivity].
  rewrite (bind_value _ _ _ _ _ (substantial_mod_loop_eval sess _)).
  rewrite <- app_assoc.
  now destruct (existsb _ (mod_answers sess)).
Qed.

(** C6. Past the specialization gate, for a third-party model: when the
    four substantial-modification answers are all No, [substantial_mod] is
    false and the run ends at the not-provider stop; when one of them is
    Yes, [substantial_mod] is true and the script goes on.  For an
    internally developed model the four sub-questions are not rendered and
    the script goes on. *)
Theorem provider_gate (sess : session) (ui : page) :
  (radio_choice sess developed_label = "Third Party" ->
   Forall (fun a => a = "No") (mod_answers sess) ->
   snd (substantial_mod_loop sess (ui ++ [Radio developed_label developed_options]))
     = inr false
   /\ step2 sess ui
      = (ui ++ [Radio developed_label developed_options] ++ mod_page,
         inl (Stopped NotProvider))
   /\ (radio_choice sess "specialized_radio" <> "Yes (Specialized/Narrow)" ->
       run sess
       = (intro_page ++ [Radio developed_label developed_options] ++ mod_page,
          inl (Stopped NotProvider))))
  /\ (radio_choice sess developed_label = "Third Party" ->
      Exists (fun a => a = "Yes") (mod_answers sess) ->
      snd (substantial_mod_loop sess (ui ++ [Radio developed_label developed_options]))
        = inr true
      /\ step2 sess ui
         = (ui ++ [Radio developed_label developed_options] ++ mod_page,
            inr (Some true)))
  /\ (radio_choice sess developed_label = "Internally Developed" ->
      step2 sess ui
      = (ui ++ [Radio developed_label developed_options], inr None)).
Proof.
  split; [| split].
  - intros Hd Hno. apply all_no_not_yes in Hno.
    split; [| split].
    + now rewrite substantial_mod_loop_value, Hno.
    + now rewrite step2_eval, Hd, Hno.
    + intros Hs. unfold run, script.
      rewrite (bind_value _ _ [] [Radio provider_type_label provider_type_options;
                                  TextArea provider_context_label]
                 (radio_choice sess provider_type_label,
                  text_value sess provider_context_label)) by reflexivity.
      rewrite (bind_value _ _ _ _ _ (step1_general sess _ Hs)).
      apply bind_halt. now rewrite step2_eval, Hd, Hno.
  - intros Hd Hyes. apply some_yes in Hyes. split.
    + now rewrite substantial_mod_loop_value, Hyes.
    + now rewrite step2_eval, Hd, Hyes.
  - intros Hd. now rewrite step2_eval, Hd.
Qed.

Lemma provider_gate_witness :
  step2 no_modification_session []
    = ([Radio developed_label developed_options] ++ mod_page,
       inl (Stopped NotProvider))
  /\ step2 modified_session []
     = ([Radio developed_label developed_options] ++ mod_page, inr (Some true))
  /\ step2 small_model_session []
     = ([Radio developed_label developed_options], inr None).
Proof.
  split; [| split].
  - apply (provider_gate no_modification_session []).
    + reflexivity.
    + repeat constructor.
  - apply (provider_gate modified_session []).
    + reflexivity.
    + unfold mod_answers. cbn. do 2 apply Exists_cons_tl. now apply Exists_cons_hd.
  - apply (provider_gate small_model_session []). reflexivity.
Defined.

(** ** Step 3: preliminary scoring *)

Lemma for_each_cons {A S} (x : A) (rest : list A) (body : A -> S -> M S) s p :
  for_each (x :: rest) body s p
  = match body x s p with
    | (p', inr s') => for_each rest body s' p'
    | (p', inl h) => (p', inl h)
    end.
Proof. reflexivity. Qed.

Lemma prelim_body_eval sess key question options score resp ui :
  prelim_body sess (key, (question, options)) (score, resp) ui
  = match (if String.eqb key "param_scale"
           then Py.getitem param_scale_score_map
                  (radio_choice sess ("prelim_" ++ key)%string)
           else Py.getitem yes_partly_no_map
                  (radio_choice sess ("prelim_" ++ key)%string)) with
    | inr points =>
        (ui ++ [Radio ("prelim_" ++ key)%string options],
         inr (score + points,
              Py.setitem resp key (radio_choice sess ("prelim_" ++ key)%string)))
    | inl e => (ui ++ [Radio ("prelim_" ++ key)%string options], inl (Raised e))
    end.
Proof.
  unfold prelim_body, radio, widget_id. monad_unfold.
  destruct (String.eqb key "param_scale");
    match goal with |- context [Py.getitem ?m ?a] => destruct (Py.getitem m a) end;
    reflexivity.
Qed.

Lemma param_scale_points a :
  In a ["< 1B"; "1B–10B"; "> 10B"] ->
  Py.getitem param_scale_score_map a = inr (spec_param_scale_points a).
Proof. intros H. split_in; subst a; reflexivity. Qed.

Lemma no_partly_yes_points a :
  In a ["No"; "Partly"; "Yes"] ->
  Py.getitem yes_partly_no_map a = inr (spec_no_partly_yes_points a).
Proof. intros H. split_in; subst a; reflexivity. Qed.

Lemma prelim_loop_eval sess ui :
  selects_declared sess "prelim_" preliminary_questions ->
  prelim_loop sess preliminary_questions (0, []) ui
  = (ui ++ radios "prelim_" preliminary_questions,
     inr (spec_preliminary_score sess,
          responses sess "prelim_" preliminary_questions)).
Proof.
  intros H. unfold selects_declared, preliminary_questions in H.
  split_forall. unfold preliminary_questions.
  unfold prelim_loop.
  do 4 (rewrite for_each_cons, prelim_body_eval;
        cbn [String.eqb Ascii.eqb Bool.eqb String.append];
        first [ rewrite param_scale_points by assumption
              | rewrite no_partly_yes_points by assumption ]).
  cbn. rewrite <- !app_assoc. reflexivity.
Qed.

Lemma step3_eval sess ui :
  selects_declared sess "prelim_" preliminary_questions ->
  step3 sess ui
  = if spec_preliminary_score sess <? 3
    then (ui ++ radios "prelim_" preliminary_questions, inl (Stopped BelowThreshold))
    else (ui ++ radios "prelim_" preliminary_questions,
          inr (spec_preliminary_score sess,
               responses sess "prelim_" preliminary_questions)).
Proof.
  intros H. unfold step3.
  rewrite (bind_value _ _ _ _ _ (prelim_loop_eval sess ui H)).
  now destruct (spec_preliminary_score sess <? 3).
Qed.

(** The script up to the provider gate, for a session that passes it. *)
Lemma gates_passed sess :
  radio_choice sess "specialized_radio" <> "Yes (Specialized/Narrow)" ->
  passes_provider_gate sess ->
  exists ui,
    run sess
    = ('(prelim_score, responses_step3) <- step3 sess ;;
       '(baseline_score, obligation_responses) <- step4 sess ;;
       '(systemic_score, systemic_responses, systemic_classification) <- step5 sess ;;
       '(overall_score, compliance_status, user_remediation) <-
         step6 sess prelim_score baseline_score ;;
       step7 sess (radio_choice sess provider_type_label)
         (text_value sess provider_context_label)
         (radio_choice sess "specialized_radio")
         prelim_score baseline_score systemic_classification compliance_status
         responses_step3 obligation_responses systemic_responses) ui.
Proof.
  intros Hs Hp. unfold run, script.
  rewrite (bind_value _ _ [] [Radio provider_type_label provider_type_options;
                              TextArea provider_context_label]
             (radio_choice sess provider_type_label,
              text_value sess provider_context_label)) by reflexivity.
  rewrite (bind_value _ _ _ _ _ (step1_general sess _ Hs)).
  destruct Hp as [Hd | [Hd Hy]].
  - erewrite bind_value; [eexists; reflexivity |].
    now rewrite step2_eval, Hd.
  - erewrite bind_value; [eexists; reflexivity |].
    now rewrite step2_eval, Hd, (some_yes _ Hy).
Qed.

(** C7. The preliminary score is the sum of the point values of the four
    selections, under the two maps of the specification.  Below 3 the
    script ends at the below-threshold stop, whatever the later answers
    of the session are; from 3 on it goes on with the score and the
    recorded responses. *)
Theorem preliminary_scoring (sess : session) (ui : page) :
  selects_declared sess "prelim_" preliminary_questions ->
  prelim_loop sess preliminary_questions (0, []) ui
  = (ui ++ radios "prelim_" preliminary_questions,
     inr (spec_preliminary_score sess,
          responses sess "prelim_" preliminary_questions))
  /\ (spec_preliminary_score sess < 3 ->
      step3 sess ui
      = (ui ++ radios "prelim_" preliminary_questions,
         inl (Stopped BelowThreshold))
      /\ (radio_choice sess "specialized_radio" <> "Yes (Specialized/Narrow)" ->
          passes_provider_gate sess ->
          snd (run sess) = inl (Stopped BelowThreshold)))
  /\ (3 <= spec_preliminary_score sess ->
      step3 sess ui
      = (ui ++ radios "prelim_" preliminary_questions,
         inr (spec_preliminary_score sess,
              responses sess "prelim_" preliminary_questions))).
Proof.
  intros H. split; [now apply prelim_loop_eval | split].
  - intros Hlt. apply Z.ltb_lt in Hlt. split.
    + now rewrite step3_eval, Hlt.
    + intros Hs Hp. destruct (gates_passed sess Hs Hp) as [ui0 ->].
      erewrite bind_halt; [reflexivity |].
      now rewrite step3_eval, Hlt.
  - intros Hge. apply Z.ltb_ge in Hge. now rewrite step3_eval, Hge.
Qed.

Lemma preliminary_scoring_witness :
  snd (run small_model_session) = inl (Stopped BelowThreshold)
  /\ step3 large_model_session []
     = (radios "prelim_" preliminary_questions,
        inr (5, responses large_model_session "prelim_" preliminary_questions)).
Proof.
  split.
  - apply (preliminary_scoring small_model_session []).
    + unfold selects_declared. repeat constructor; cbn; tauto.
    + reflexivity.
    + discriminate.
    + left. reflexivity.
  - apply (preliminary_scoring large_model_session []).
    + repeat constructor; cbn; tauto.
    + discriminate.
Defined.

(** ** Step 4: baseline obligations *)

Lemma baseline_body_eval sess key question options score resp ui :
  baseline_body sess (key, (question, options)) (score, resp) ui
  = match numeric_val (radio_choice sess ("obligation_" ++ key)%string) with
    | inr n =>
        (ui ++ [Radio ("obligation_" ++ key)%string options],
         inr (score + n,
              Py.setitem resp key
                (radio_choice sess ("obligation_" ++ key)%string)))
    | inl e =>
        (ui ++ [Radio ("obligation_" ++ key)%string options], inl (Raised e))
    end.
Proof.
  unfold baseline_body, radio, widget_id. monad_unfold.
  now destruct (numeric_val _).
Qed.

(** The labels that carry their value between parentheses parse. *)
Lemma numeric_val_tech_doc a :
  In a ["Not in place (0)"; "Partially in place (1)"; "Fully in place (2)"] ->
  exists n, numeric_val a = inr n /\ 0 <= n <= 2.
Proof.
  intros H. split_in; subst a;
    [exists 0 | exists 1 | exists 2]; (split; [reflexivity | lia]).
Qed.

(** The labels of the three other questions start with their value and
    hold no parenthesis: [int] receives the whole label. *)
Lemma numeric_val_leading_digit a :
  In a ["0 - None"; "1 - Some partial instructions"; "2 - Comprehensive guidelines";
        "1 - Partial policy"; "2 - Fully documented policy";
        "0 - Not published"; "1 - Partially available"; "2 - Comprehensive summary"] ->
  numeric_val a = inl (Py.ValueError a).
Proof. intros H. split_in; subst a; reflexivity. Qed.

Lemma step4_eval sess ui :
  selects_declared sess "obligation_" baseline_obligations ->
  step4 sess ui
  = (ui ++ firstn 2 (radios "obligation_" baseline_obligations),
     inl (Raised (Py.ValueError (radio_choice sess "obligation_instructions")))).
Proof.
  intros H. unfold selects_declared, baseline_obligations in H. split_forall.
  cbn [String.append] in *.
  match goal with
  | H : In (radio_choice sess "obligation_tech_doc") _ |- _ =>
      destruct (numeric_val_tech_doc _ H) as (n & Hn & _)
  end.
  match goal with
  | H : In (radio_choice sess "obligation_instructions") _ |- _ =>
      assert (Hi : numeric_val (radio_choice sess "obligation_instructions")
                   = inl (Py.ValueError (radio_choice sess "obligation_instructions")))
        by (apply numeric_val_leading_digit; cbn in H |- *; tauto)
  end.
  unfold step4, baseline_loop, baseline_obligations.
  rewrite for_each_cons, baseline_body_eval. cbn [String.append]. rewrite Hn.
  rewrite for_each_cons, baseline_body_eval. cbn [String.append]. rewrite Hi.
  cbn. now rewrite <- app_assoc.
Qed.

Lemma bind_inr_inv {A B} (m : M A) (f : A -> M B) p q b :
  bind m f p = (q, inr b) ->
  exists p' a, m p = (p', inr a) /\ f a p' = (q, inr b).
Proof.
  unfold bind. destruct (m p) as [p' [h | a]]; [discriminate |].
  intros H. now exists p', a.
Qed.

(** No execution of the script on declared options assembles a report:
    the statements about the later steps are about those steps taken
    from the values of the variables they read. *)
Lemma run_never_reports sess ui report :
  selects_declared sess "obligation_" baseline_obligations ->
  run sess <> (ui, inr report).
Proof.
  intros Hsel H. unfold run, script in H.
  apply bind_inr_inv in H as (p1 & [pt pj] & _ & H).
  apply bind_inr_inv in H as (p2 & sr & _ & H).
  apply bind_inr_inv in H as (p3 & sm & _ & H).
  apply bind_inr_inv in H as (p4 & [ps r3] & _ & H).
  apply bind_inr_inv in H as (p5 & [bs r4] & H4 & _).
  now rewrite (step4_eval sess p4 Hsel) in H4.
Qed.

(** C1. The extraction of line 225 succeeds on the labels of the
    technical-documentation question only.  For every selection from the
    declared option lists the baseline loop raises [ValueError] at its
    second question: the label selected for the instructions question is
    passed whole to [int].  No baseline score results, and no execution
    of the script returns a report. *)
Theorem baseline_scoring_raises (sess : session) (ui : page) :
  selects_declared sess "obligation_" baseline_obligations ->
  numeric_val (radio_choice sess "obligation_instructions")
    = inl (Py.ValueError (radio_choice sess "obligation_instructions"))
  /\ step4 sess ui
     = (ui ++ firstn 2 (radios "obligation_" baseline_obligations),
        inl (Raised (Py.ValueError (radio_choice sess "obligation_instructions"))))
  /\ (forall ui' report, run sess <> (ui', inr report)).
Proof.
  intros H. split; [| split].
  - unfold selects_declared, baseline_obligations in H. split_forall.
    apply numeric_val_leading_digit.
    match goal with
    | H : In (radio_choice sess ("obligation_" ++ "instructions")%string) _ |- _ =>
        cbn in H |- *; tauto
    end.
  - now apply step4_eval.
  - intros ui' report. now apply run_never_reports.
Qed.

Lemma baseline_scoring_raises_witness :
  step4 large_model_session []
  = (firstn 2 (radios "obligation_" baseline_obligations),
     inl (Raised (Py.ValueError "0 - None"))).
Proof.
  apply (baseline_scoring_raises large_model_session []).
  declared.
Defined.

(** ** Step 5: systemic risk *)

Lemma systemic_body_eval sess key question options score resp ui :
  systemic_body sess (key, (question, options)) (score, resp) ui
  = match Py.getitem yes_no_map (radio_choice sess ("sys_" ++ key)%string) with
    | inr points =>
        (ui ++ [Radio ("sys_" ++ key)%string options],
         inr (score + points,
              Py.setitem resp key (radio_choice sess ("sys_" ++ key)%string)))
    | inl e => (ui ++ [Radio ("sys_" ++ key)%string options], inl (Raised e))
    end.
Proof.
  unfold systemic_body, radio, widget_id. monad_unfold.
  now destruct (Py.getitem _ _).
Qed.

Lemma yes_no_points a :
  In a ["No"; "Yes"] -> Py.getitem yes_no_map a = inr (affirmative a).
Proof. intros H. split_in; subst a; reflexivity. Qed.

Lemma systemic_loop_eval sess ui :
  selects_declared sess "sys_" systemic_questions ->
  systemic_loop sess systemic_questions (0, []) ui
  = (ui ++ radios "sys_" systemic_questions,
     inr (spec_systemic_score sess, responses sess "sys_" systemic_questions)).
Proof.
  intros H. unfold selects_declared, systemic_questions in H.
  split_forall. unfold systemic_loop, systemic_questions.
  do 4 (rewrite for_each_cons, systemic_body_eval;
        cbn [String.append]; rewrite yes_no_points by assumption).
  cbn. rewrite <- !app_assoc. reflexivity.
Qed.

Lemma classify_systemic_eval sess ui score :
  classify_systemic sess score (responses sess "sys_" systemic_questions) ui
  = if (String.eqb (radio_choice sess "sys_flop_threshold") "Yes"
        || String.eqb (radio_choice sess "sys_sota_advancement") "Yes")%bool
    then (ui, inr "Yes")
    else if score >? 1
         then (ui ++ override_page,
               inr (if String.eqb (radio_choice sess "borderline_sysrisk")
                         "Yes - High Impact/Systemic"
                    then "Yes" else "No"))
         else (ui, inr "No").
Proof.
  evaluate.
  destruct (String.eqb (radio_choice sess "sys_flop_threshold") "Yes");
    [reflexivity |].
  destruct (String.eqb (radio_choice sess "sys_sota_advancement") "Yes");
    [reflexivity |].
  cbn. destruct (score >? 1); [| reflexivity].
  now destruct (String.eqb (radio_choice sess "borderline_sysrisk") _).
Qed.

Lemma step5_eval sess ui :
  selects_declared sess "sys_" systemic_questions ->
  step5 sess ui
  = let asked := ui ++ radios "sys_" systemic_questions in
    let result c :=
      inr (spec_systemic_score sess, responses sess "sys_" systemic_questions, c) in
    if (String.eqb (radio_choice sess "sys_flop_threshold") "Yes"
        || String.eqb (radio_choice sess "sys_sota_advancement") "Yes")%bool
    then (asked, result "Yes")
    else if spec_systemic_score sess >? 1
         then (asked ++ override_page,
               result (if String.eqb (radio_choice sess "borderline_sysrisk")
                            "Yes - High Impact/Systemic"
                       then "Yes" else "No"))
         else (asked, result "No").
Proof.
  intros H. unfold step5.
  rewrite (bind_value _ _ _ _ _ (systemic_loop_eval sess ui H)).
  unfold bind at 1. rewrite classify_systemic_eval. cbv zeta.
  destruct (_ || _)%bool; [reflexivity |].
  now destruct (spec_systemic_score sess >? 1).
Qed.

(** C2. The systemic classification follows the three-branch rule, in
    this order.  (1) When the compute-threshold answer or the
    state-of-the-art answer is Yes the classification is Yes and the
    override question is not rendered.  (2) Otherwise, when the systemic
    score (the number of Yes answers) exceeds 1, the override question is
    rendered after the four questions and the classification is Yes or No
    as its answer says.  (3) Otherwise the classification is No and the
    override question is not rendered. *)
Theorem systemic_risk_rule (sess : session) (ui : page) :
  selects_declared sess "sys_" systemic_questions ->
  let asked := ui ++ radios "sys_" systemic_questions in
  let result c :=
    inr (spec_systemic_score sess, responses sess "sys_" systemic_questions, c) in
  (radio_choice sess "sys_flop_threshold" = "Yes"
   \/ radio_choice sess "sys_sota_advancement" = "Yes" ->
   step5 sess ui = (asked, result "Yes"))
  /\ (radio_choice sess "sys_flop_threshold" <> "Yes" ->
      radio_choice sess "sys_sota_advancement" <> "Yes" ->
      spec_systemic_score sess > 1 ->
      (radio_choice sess "borderline_sysrisk" = "Yes - High Impact/Systemic" ->
       step5 sess ui = (asked ++ override_page, result "Yes"))
      /\ (radio_choice sess "borderline_sysrisk" = "No - Not Systemic" ->
          step5 sess ui = (asked ++ override_page, result "No")))
  /\ (radio_choice sess "sys_flop_threshold" <> "Yes" ->
      radio_choice sess "sys_sota_advancement" <> "Yes" ->
      spec_systemic_score sess <= 1 ->
      step5 sess ui = (asked, result "No")).
Proof.
  intros H asked result. rewrite (step5_eval sess ui H). cbv zeta.
  fold asked. split; [| split].
  - intros [Hy | Hy]; rewrite Hy; cbn [String.eqb Ascii.eqb Bool.eqb orb];
      [reflexivity | now rewrite orb_true_r].
  - intros Hf Hs Hgt.
    apply String.eqb_neq in Hf, Hs. rewrite Hf, Hs. cbn [orb].
    apply Z.gt_lt, Z.gtb_lt in Hgt. rewrite Hgt.
    split; intros ->; reflexivity.
  - intros Hf Hs Hle.
    apply String.eqb_neq in Hf, Hs. rewrite Hf, Hs. cbn [orb].
    destruct (Z.gtb_spec (spec_systemic_score sess) 1); [lia | reflexivity].
Qed.

Lemma systemic_risk_rule_witness :
  snd (step5 over_threshold_session [])
    = inr (1, responses over_threshold_session "sys_" systemic_questions, "Yes")
  /\ snd (step5 (borderline_session "Yes - High Impact/Systemic") [])
     = inr (2, responses (borderline_session "Yes - High Impact/Systemic")
                 "sys_" systemic_questions, "Yes")
  /\ snd (step5 (borderline_session "No - Not Systemic") [])
     = inr (2, responses (borderline_session "No - Not Systemic")
                 "sys_" systemic_questions, "No")
  /\ snd (step5 single_indicator_session [])
     = inr (1, responses single_indicator_session "sys_" systemic_questions, "No").
Proof.
  assert (V1 : selects_declared over_threshold_session "sys_" systemic_questions)
    by declared.
  assert (V2 : forall d, selects_declared (borderline_session d) "sys_" systemic_questions)
    by (intros d; declared).
  assert (V3 : selects_declared single_indicator_session "sys_" systemic_questions)
    by declared.
  destruct (systemic_risk_rule over_threshold_session [] V1) as [H1 _].
  destruct (systemic_risk_rule (borderline_session "Yes - High Impact/Systemic") []
              (V2 _)) as [_ [H2 _]].
  destruct (systemic_risk_rule (borderline_session "No - Not Systemic") []
              (V2 _)) as [_ [H3 _]].
  destruct (systemic_risk_rule single_indicator_session [] V3) as [_ [_ H4]].
  split; [| split; [| split]].
  - rewrite H1; [reflexivity | left; reflexivity].
  - destruct H2 as [H2 _]; [discriminate | discriminate | reflexivity |].
    rewrite H2; reflexivity.
  - destruct H3 as [_ H3]; [discriminate | discriminate | reflexivity |].
    rewrite H3; reflexivity.
  - rewrite H4; [reflexivity | discriminate | discriminate | discriminate].
Defined.

(** ** Step 6: aggregation *)

Lemma step6_eval sess p b ui :
  step6 sess p b ui
  = if p + b >=? 12 then (ui, inr (p + b, compliant_text, None))
    else (ui ++ [TextArea remediation_label],
          inr (p + b, compliance_of (p + b),
               Some (text_value sess remediation_label))).
Proof.
  unfold step6, compliance_of.
  destruct (p + b >=? 12); [reflexivity |].
  destruct (p + b >=? 8); reflexivity.
Qed.



(** ** Ranges of the scores *)

(** A loop whose body adds between 0 and 2 to the score adds between 0
    and twice the number of its items. *)
Lemma for_each_bound {A} (items : list A)
  (body : A -> Z * Py.dict string -> M (Z * Py.dict string)) :
  (forall x s r p p' s' r',
      In x items -> body x (s, r) p = (p', inr (s', r')) -> s <= s' <= s + 2) ->
  forall s r p p' s' r',
    for_each items body (s, r) p = (p', inr (s', r')) ->
    s <= s' <= s + 2 * Z.of_nat (length items).
Proof.
  induction items as [| x items IH]; intros Hbody s r p p' s' r' H.
  - cbn in H. injection H as _ <- _. cbn. lia.
  - rewrite for_each_cons in H.
    destruct (body x (s, r) p) as [q [h | [s1 r1]]] eqn:Hx; [discriminate |].
    apply Hbody in Hx; [| now left].
    apply IH in H; [| intros; eapply Hbody; [right |]; eassumption].
    cbn [length]. lia.
Qed.

Lemma firstn_subset {A} n (l : list A) x : In x (firstn n l) -> In x l.
Proof.
  revert n. induction l as [| y l IH]; intros [| n] H; cbn in H; try easy.
  destruct H as [-> | H]; [now left | right; eauto].
Qed.

Lemma spec_param_scale_points_range a : 0 <= spec_param_scale_points a <= 2.
Proof.
  unfold spec_param_scale_points.
  repeat match goal with |- context [String.eqb ?x ?y] => destruct (String.eqb x y) end;
    lia.
Qed.

Lemma spec_no_partly_yes_points_range a : 0 <= spec_no_partly_yes_points a <= 2.
Proof.
  unfold spec_no_partly_yes_points.
  repeat match goal with |- context [String.eqb ?x ?y] => destruct (String.eqb x y) end;
    lia.
Qed.

Lemma prelim_body_range sess item s r p p' s' r' :
  selects_declared sess "prelim_" preliminary_questions ->
  In item preliminary_questions ->
  prelim_body sess item (s, r) p = (p', inr (s', r')) ->
  s <= s' <= s + 2.
Proof.
  intros Hsel Hin H. unfold selects_declared in Hsel.
  rewrite Forall_forall in Hsel. specialize (Hsel item Hin).
  unfold preliminary_questions in Hin. split_in; subst item;
    rewrite prelim_body_eval in H; cbn [String.eqb Ascii.eqb Bool.eqb] in H;
    first [ rewrite (param_scale_points _ Hsel) in H
          | rewrite (no_partly_yes_points _ Hsel) in H ];
    injection H as _ <- _;
    match goal with
    | |- context [spec_param_scale_points ?a] =>
        pose proof (spec_param_scale_points_range a)
    | |- context [spec_no_partly_yes_points ?a] =>
        pose proof (spec_no_partly_yes_points_range a)
    end;
    lia.
Qed.

Lemma baseline_body_range sess item s r p p' s' r' :
  selects_declared sess "obligation_" baseline_obligations ->
  In item baseline_obligations ->
  baseline_body sess item (s, r) p = (p', inr (s', r')) ->
  s <= s' <= s + 2.
Proof.
  intros Hsel Hin H. unfold selects_declared in Hsel.
  rewrite Forall_forall in Hsel. specialize (Hsel item Hin).
  unfold baseline_obligations in Hin. split_in; subst item;
    rewrite baseline_body_eval in H.
  - destruct (numeric_val_tech_doc _ Hsel) as (n & Hn & Hrange).
    rewrite Hn in H. injection H as _ <- _. lia.
  - rewrite numeric_val_leading_digit in H by (cbn in Hsel |- *; tauto).
    discriminate.
  - rewrite numeric_val_leading_digit in H by (cbn in Hsel |- *; tauto).
    discriminate.
  - rewrite numeric_val_leading_digit in H by (cbn in Hsel |- *; tauto).
    discriminate.
Qed.

Lemma prelim_score_value_range sess p :
  selects_declared sess "prelim_" preliminary_questions ->
  prelim_score_value sess p -> 0 <= p <= 8.
Proof.
  intros Hsel (n & ui & ui' & r & H). unfold prelim_loop in H.
  apply for_each_bound in H.
  - rewrite length_firstn in H.
    change (length preliminary_questions) with 4%nat in H. lia.
  - intros x s r0 q q' s' r' Hin. apply prelim_body_range; [assumption |].
    now apply firstn_subset in Hin.
Qed.

Lemma baseline_score_value_range sess b :
  selects_declared sess "obligation_" baseline_obligations ->
  baseline_score_value sess b -> 0 <= b <= 8.
Proof.
  intros Hsel (n & ui & ui' & r & H). unfold baseline_loop in H.
  apply for_each_bound in H.
  - rewrite length_firstn in H.
    change (length baseline_obligations) with 4%nat in H. lia.
  - intros x s r0 q q' s' r' Hin. apply baseline_body_range; [assumption |].
    now apply firstn_subset in Hin.
Qed.

(** C9. For every session that selects from the declared options, every
    value [prelim_score] takes lies between 0 and 8, every value
    [baseline_score] takes lies between 0 and 8, and every value step 6
    gives [overall_score] from such scores lies between 0 and 16. *)
Theorem score_ranges (sess : session) :
  selects_declared sess "prelim_" preliminary_questions ->
  selects_declared sess "obligation_" baseline_obligations ->
  (forall p, prelim_score_value sess p -> 0 <= p <= 8)
  /\ (forall b, baseline_score_value sess b -> 0 <= b <= 8)
  /\ (forall o, overall_score_value sess o -> 0 <= o <= 16).
Proof.
  intros Hp Hb. split; [| split].
  - intros p. now apply prelim_score_value_range.
  - intros b. now apply baseline_score_value_range.
  - intros o (p & b & ui & ui' & status & rem & Vp & Vb & H).
    apply prelim_score_value_range in Vp; [| assumption].
    apply baseline_score_value_range in Vb; [| assumption].
    rewrite step6_eval in H.
    destruct (p + b >=? 12); injection H as _ <- _ _; lia.
Qed.

Lemma score_ranges_witness :
  (prelim_score_value large_model_session 5
   /\ baseline_score_value large_model_session 2
   /\ overall_score_value large_model_session 7)
  /\ 0 <= 5 <= 8 /\ 0 <= 2 <= 8 /\ 0 <= 7 <= 16.
Proof.
  assert (Vp : prelim_score_value large_model_session 5)
    by (exists 4%nat, [], (radios "prelim_" preliminary_questions),
          (responses large_model_session "prelim_" preliminary_questions);
        reflexivity).
  assert (Vb : baseline_score_value large_model_session 2)
    by (exists 1%nat, [], (firstn 1 (radios "obligation_" baseline_obligations)),
          [("tech_doc", "Fully in place (2)")];
        reflexivity).
  assert (Vo : overall_score_value large_model_session 7)
    by (exists 5, 2, [], [TextArea remediation_label], non_compliant_text,
          (Some "free text"); repeat split; assumption || reflexivity).
  destruct (score_ranges large_model_session) as (Hp & Hb & Ho);
    [declared | declared |].
  split; [now repeat split |].
  split; [| split]; [now apply Hp | now apply Hb | now apply Ho].
Defined.

(** ** What the scores and the classification depend on *)

Lemma bind_related {A B} (R : A -> A -> Prop) (R' : B -> B -> Prop)
  (m1 m2 : M A) (f1 f2 : A -> M B) p1 p2 :
  related R (snd (m1 p1)) (snd (m2 p2)) ->
  (forall a b q1 q2, R a b -> related R' (snd (f1 a q1)) (snd (f2 b q2))) ->
  related R' (snd (bind m1 f1 p1)) (snd (bind m2 f2 p2)).
Proof.
  unfold bind. intros Hm Hf.
  destruct (m1 p1) as [q1 [h1 | a]], (m2 p2) as [q2 [h2 | b]]; cbn in *;
    try contradiction; auto.
Qed.

Lemma related_eq {A} (x y : halt + A) : related eq x y <-> x = y.
Proof.
  destruct x, y; cbn; split; intros H; try congruence; try contradiction;
    try discriminate.
Qed.

(** A loop reads the session through the radios of its questions only. *)
Lemma prelim_loop_agree s1 s2 questions :
  Forall (fun '(key, _) =>
            radio_choice s1 ("prelim_" ++ key)%string
            = radio_choice s2 ("prelim_" ++ key)%string) questions ->
  forall vars ui1 ui2,
    snd (prelim_loop s1 questions vars ui1) = snd (prelim_loop s2 questions vars ui2).
Proof.
  unfold prelim_loop.
  induction 1 as [| [key [question options]] questions Hkey _ IH];
    intros [score resp] ui1 ui2; [reflexivity |].
  rewrite !for_each_cons, !prelim_body_eval, Hkey.
  destruct (if String.eqb key "param_scale" then _ else _); [reflexivity |].
  apply IH.
Qed.

Lemma baseline_loop_agree s1 s2 obligations :
  Forall (fun '(key, _) =>
            radio_choice s1 ("obligation_" ++ key)%string
            = radio_choice s2 ("obligation_" ++ key)%string) obligations ->
  forall vars ui1 ui2,
    snd (baseline_loop s1 obligations vars ui1)
    = snd (baseline_loop s2 obligations vars ui2).
Proof.
  unfold baseline_loop.
  induction 1 as [| [key [question options]] obligations Hkey _ IH];
    intros [score resp] ui1 ui2; [reflexivity |].
  rewrite !for_each_cons, !baseline_body_eval, Hkey.
  destruct (numeric_val _); [reflexivity |].
  apply IH.
Qed.

Lemma systemic_loop_agree s1 s2 questions :
  Forall (fun '(key, _) =>
            radio_choice s1 ("sys_" ++ key)%string
            = radio_choice s2 ("sys_" ++ key)%string) questions ->
  forall vars ui1 ui2,
    snd (systemic_loop s1 questions vars ui1)
    = snd (systemic_loop s2 questions vars ui2).
Proof.
  unfold systemic_loop.
  induction 1 as [| [key [question options]] questions Hkey _ IH];
    intros [score resp] ui1 ui2; [reflexivity |].
  rewrite !for_each_cons, !systemic_body_eval, Hkey.
  destruct (Py.getitem _ _); [reflexivity |].
  apply IH.
Qed.

Lemma step3_agree s1 s2 ui1 ui2 :
  agree_on s1 s2 scoring_ids ->
  snd (step3 s1 ui1) = snd (step3 s2 ui2).
Proof.
  intros H. unfold agree_on, scoring_ids in H. cbn in H. split_forall.
  apply related_eq. unfold step3.
  apply bind_related with (R := eq).
  - apply related_eq, prelim_loop_agree. repeat constructor; assumption.
  - intros [p r] b q1 q2 <-. apply related_eq.
    now destruct (p <? 3).
Qed.

Lemma step4_agree s1 s2 ui1 ui2 :
  agree_on s1 s2 scoring_ids ->
  snd (step4 s1 ui1) = snd (step4 s2 ui2).
Proof.
  intros H. unfold agree_on, scoring_ids in H. cbn in H. split_forall.
  unfold step4. apply baseline_loop_agree. repeat constructor; assumption.
Qed.

Lemma classify_systemic_agree s1 s2 score resp ui1 ui2 :
  radio_choice s1 "borderline_sysrisk" = radio_choice s2 "borderline_sysrisk" ->
  snd (classify_systemic s1 score resp ui1)
  = snd (classify_systemic s2 score resp ui2).
Proof.
  intros H. unfold classify_systemic, radio, widget_id. monad_unfold.
  rewrite H.
  destruct (Py.getitem resp "flop_threshold") as [e | flop]; [reflexivity |].
  destruct (String.eqb flop "Yes"); [reflexivity |].
  destruct (Py.getitem resp "sota_advancement") as [e | sota]; [reflexivity |].
  destruct (String.eqb sota "Yes"); [reflexivity |].
  destruct (score >? 1); [| reflexivity].
  now destruct (String.eqb (radio_choice s2 "borderline_sysrisk") _).
Qed.

Lemma step5_agree s1 s2 ui1 ui2 :
  agree_on s1 s2 systemic_ids ->
  snd (step5 s1 ui1) = snd (step5 s2 ui2).
Proof.
  intros H. unfold agree_on, systemic_ids in H. cbn in H. split_forall.
  apply related_eq. unfold step5.
  apply bind_related with (R := eq).
  - apply related_eq, systemic_loop_agree. repeat constructor; assumption.
  - intros [score resp] b q1 q2 <-.
    apply bind_related with (R := eq).
    + apply related_eq. now apply classify_systemic_agree.
    + intros c c' q1' q2' <-. reflexivity.
Qed.

Lemma step5_returns sess ui :
  selects_declared sess "sys_" systemic_questions ->
  exists ui' r, step5 sess ui = (ui', inr r).
Proof.
  intros H. rewrite (step5_eval sess ui H). cbv zeta.
  destruct (_ || _)%bool; [eauto |].
  destruct (spec_systemic_score sess >? 1); eauto.
Qed.

(** C10. Two sessions that hold the same selections in the four
    preliminary and the four baseline questions, and declared options in
    the systemic questions, give steps 3 to 6 the same outcome as far as
    the overall score and the compliance status go, whatever their
    systemic answers, override answers and texts are; step 6 gives the
    same overall score and compliance status from the same two scores in
    any two sessions.  Two sessions that hold the same selections in the
    four systemic questions and the override question give step 5 the
    same outcome: step 5 reads no score. *)
Theorem noninterference (s1 s2 : session) (ui1 ui2 : page) :
  (agree_on s1 s2 scoring_ids ->
   selects_declared s1 "sys_" systemic_questions ->
   selects_declared s2 "sys_" systemic_questions ->
   score_view (assessment s1 ui1) = score_view (assessment s2 ui2))
  /\ (forall p b, score_view (step6 s1 p b ui1) = score_view (step6 s2 p b ui2))
  /\ (agree_on s1 s2 systemic_ids ->
      snd (step5 s1 ui1) = snd (step5 s2 ui2)).
Proof.
  split; [| split].
  - intros Ha V1 V2.
    assert (R : related (fun x y : Z * string * string => fst x = fst y)
                  (snd (assessment s1 ui1)) (snd (assessment s2 ui2))).
    { unfold assessment.
      apply bind_related with (R := eq).
      { apply related_eq. now apply step3_agree. }
      intros [p r3] ? q1 q2 <-.
      apply bind_related with (R := eq).
      { apply related_eq. now apply step4_agree. }
      intros [b r4] ? q3 q4 <-.
      apply bind_related with (R := fun _ _ => True).
      { destruct (step5_returns s1 q3 V1) as (? & ? & ->).
        destruct (step5_returns s2 q4 V2) as (? & ? & ->). exact I. }
      intros [[ss1 sr1] sc1] [[ss2 sr2] sc2] q5 q6 _.
      apply bind_related with (R := fun x y => fst x = fst y).
      { rewrite !step6_eval. now destruct (p + b >=? 12). }
      intros [[o1 c1] rem1] [[o2 c2] rem2] q7 q8 E. cbn in E.
      injection E as <- <-. reflexivity. }
    unfold score_view.
    destruct (snd (assessment s1 ui1)) as [h1 | [[o1 c1] x1]],
             (snd (assessment s2 ui2)) as [h2 | [[o2 c2] x2]];
      cbn in R; try contradiction; congruence.
  - intros p b. unfold score_view. rewrite !step6_eval.
    now destruct (p + b >=? 12).
  - apply step5_agree.
Qed.

Lemma noninterference_witness :
  score_view (assessment large_model_session [])
    = score_view (assessment large_model_session' [])
  /\ snd (step5 (borderline_session "No - Not Systemic") [])
     = snd (step5 borderline_session'
              [Radio "specialized_radio" specialized_options]).
Proof.
  split.
  - apply (noninterference large_model_session large_model_session' [] []).
    + unfold agree_on. repeat constructor.
    + declared.
    + declared.
  - apply (noninterference (borderline_session "No - Not Systemic")
             borderline_session' [] [Radio "specialized_radio" specialized_options]).
    unfold agree_on. repeat constructor.
Defined.

(** ** The export: reading back what the writer wrote *)

Module CsvFacts.
Import Csv.

Lemma append_assoc (a b c : string) : ((a ++ b) ++ c = a ++ (b ++ c))%string.
Proof. induction a as [| x a IH]; cbn; [reflexivity | now rewrite IH]. Qed.

Lemma append_empty (a : string) : (a ++ EmptyString)%string = a.
Proof. induction a as [| x a IH]; cbn; [reflexivity | now rewrite IH]. Qed.

Lemma push_string_empty t : push_string EmptyString t = t.
Proof. now destruct t as [[[f fs] rows] |]. Qed.

Lemma push_char_string c f t :
  push_char c (push_string f t) = push_string (String c f) t.
Proof. now destruct t as [[[g fs] rows] |]. Qed.

(** At the end of a field the three modes outside quotes read alike. *)
Lemma read_from_field_end m s :
  field_end s -> m <> Quoted -> read_from m s = read_from FieldStart s.
Proof.
  intros [r [-> | ->]] Hm; destruct m; try reflexivity; contradiction.
Qed.

Lemma read_unquoted f rest :
  needs_quotes f = false -> field_end rest ->
  read_from Unquoted (f ++ rest) = push_string f (read_from FieldStart rest).
Proof.
  intros Hf Hrest. induction f as [| c f IH].
  - cbn. rewrite push_string_empty. now apply read_from_field_end.
  - cbn in Hf. apply orb_false_elim in Hf as [Hc Hf].
    unfold is_special in Hc.
    apply orb_false_elim in Hc as [Hc Hl]. apply orb_false_elim in Hc as [Hd Hq].
    cbn [String.append read_from]. rewrite Hd, Hl, (IH Hf).
    apply push_char_string.
Qed.

Lemma read_plain_field f rest :
  needs_quotes f = false -> field_end rest ->
  read_from FieldStart (f ++ rest) = push_string f (read_from FieldStart rest).
Proof.
  intros Hf Hrest. destruct f as [| c f].
  - cbn. now rewrite push_string_empty.
  - pose proof Hf as Hf'. cbn in Hf. apply orb_false_elim in Hf as [Hc Hf].
    unfold is_special in Hc.
    apply orb_false_elim in Hc as [Hc Hl]. apply orb_false_elim in Hc as [Hd Hq].
    cbn [String.append read_from]. rewrite Hd, Hl, Hq.
    rewrite (read_unquoted f rest Hf Hrest).
    apply push_char_string.
Qed.

Lemma read_quoted_body f rest :
  read_from Quoted (double_quotes f ++ String quotechar rest)
  = push_string f (read_from QuoteSeen rest).
Proof.
  induction f as [| c f IH].
  - cbn. now rewrite push_string_empty.
  - cbn [double_quotes]. destruct (Ascii.eqb c quotechar) eqn:Hc.
    + apply Ascii.eqb_eq in Hc. subst c.
      cbn [String.append read_from]. cbn [Ascii.eqb Bool.eqb quotechar].
      cbn [String.append] in IH. rewrite IH. apply push_char_string.
    + cbn [String.append read_from]. rewrite Hc, IH. apply push_char_string.
Qed.

Lemma read_quoted_field f rest :
  field_end rest ->
  read_from FieldStart (quoted f ++ rest)
  = push_string f (read_from FieldStart rest).
Proof.
  intros Hrest. unfold quoted. cbn [String.append read_from].
  cbn [Ascii.eqb Bool.eqb quotechar]. rewrite append_assoc.
  cbn [String.append]. rewrite read_quoted_body.
  now rewrite (read_from_field_end QuoteSeen rest Hrest).
Qed.

Lemma read_written_field f rest :
  field_end rest ->
  read_from FieldStart (write_field f ++ rest)
  = push_string f (read_from FieldStart rest).
Proof.
  intros Hrest. unfold write_field. destruct (needs_quotes f) eqn:Hf.
  - now apply read_quoted_field.
  - now apply read_plain_field.
Qed.

(** The records after a line terminator. *)
Lemma read_line_end more rows :
  reader more = Some rows ->
  read_from FieldStart (String lineterminator more)
  = Some (EmptyString, [], rows).
Proof.
  intros H. cbn. unfold reader in H. destruct more as [| c more].
  - now injection H as <-.
  - cbn [end_row]. destruct (read_from FieldStart (String c more)) as [[[f fs] r] |];
      [now injection H as <- | discriminate].
Qed.

Lemma read_fields f fs more rows :
  reader more = Some rows ->
  read_from FieldStart
    (String.concat (String delimiter EmptyString) (map write_field (f :: fs))
       ++ String lineterminator more)
  = Some (f, fs, rows).
Proof.
  intros Hmore. revert f. induction fs as [| g fs IH]; intros f.
  - cbn [map String.concat].
    rewrite read_written_field by (exists more; now right).
    rewrite (read_line_end more rows Hmore). cbn. now rewrite append_empty.
  - change (String.concat (String delimiter EmptyString) (map write_field (f :: g :: fs)))
      with (write_field f
              ++ String delimiter EmptyString
              ++ String.concat (String delimiter EmptyString)
                   (map write_field (g :: fs)))%string.
    rewrite !append_assoc. cbn [String.append].
    rewrite read_written_field by (eexists; now left).
    cbn [read_from]. cbn [Ascii.eqb Bool.eqb quotechar delimiter].
    rewrite (IH g). cbn. now rewrite append_empty.
Qed.

Lemma reader_cons c s :
  reader (String c s)
  = match read_from FieldStart (String c s) with
    | Some (f, fs, rows) => Some ((f :: fs) :: rows)
    | None => None
    end.
Proof. reflexivity. Qed.

Lemma read_row r more rows :
  r <> [] -> reader more = Some rows ->
  reader (writerow r ++ more) = Some (r :: rows).
Proof.
  intros Hr Hmore.
  assert (General : forall f fs,
             reader ((String.concat (String delimiter EmptyString)
                        (map write_field (f :: fs))
                      ++ String lineterminator EmptyString) ++ more)
             = Some ((f :: fs) :: rows)).
  { intros f fs. rewrite append_assoc. cbn [String.append].
    pose proof (read_fields f fs more rows Hmore) as H.
    destruct (String.concat _ _ ++ String lineterminator more)%string eqn:E.
    - cbn in H. discriminate.
    - now rewrite reader_cons, H. }
  destruct r as [| f fs]; [contradiction |].
  destruct f as [| c f], fs as [| g fs]; try apply General.
  unfold writerow. rewrite append_assoc. cbn [String.append].
  pose proof (read_quoted_field EmptyString (String lineterminator more)) as H.
  rewrite (read_line_end more rows Hmore) in H.
  unfold quoted in *. cbn [double_quotes String.append] in *.
  rewrite reader_cons, H; [reflexivity |]. exists more. now right.
Qed.

(** Reading back what [writerows] wrote gives the rows. *)
Lemma read_written_rows rows :
  Forall (fun r => r <> []) rows ->
  reader (writerows rows) = Some rows.
Proof.
  induction 1 as [| r rows Hr _ IH]; [reflexivity |].
  cbn [writerows]. now apply read_row.
Qed.

End CsvFacts.

(** The decimal text of an integer reads back as the integer. *)
Lemma str_of_int_reads_back (z : Z) :
  option_map Z.of_int (NilZero.int_of_string (Py.str_of_int z)) = Some z.
Proof.
  unfold Py.str_of_int. rewrite NilZero.isi.
  - cbn. now rewrite DecimalZ.of_to.
  - destruct z; cbn; try discriminate.
    intros [= H]. now apply DecimalPos.Unsigned.to_uint_nonnil in H.
  - destruct z; cbn; try discriminate.
    intros [= H]. now apply DecimalPos.Unsigned.to_uint_nonnil in H.
Qed.

Lemma setitem_nonempty {V} (d : Py.dict V) k v : Py.setitem d k v <> [].
Proof. destruct d as [| [k' v'] d]; cbn; [| destruct (String.eqb k' k)]; discriminate. Qed.

Lemma field_column (report : Py.dict Py.value) k v :
  In (k, v) report ->
  exists i, nth_error (Py.keys report) i = Some k
            /\ nth_error (map Py.str (Py.values report)) i = Some (Py.str v).
Proof.
  intros H. apply In_nth_error in H as [i H]. exists i.
  unfold Py.keys, Py.values. rewrite map_map.
  split; now rewrite nth_error_map, H.
Qed.

Lemma to_csv_reads_back (report : Py.dict Py.value) :
  report <> [] ->
  Csv.reader (Pd.to_csv (Pd.DataFrame [report]))
  = Some [Py.keys report; map Py.str (Py.values report)].
Proof.
  intros H. unfold Pd.to_csv, Pd.DataFrame. cbn [Pd.columns Pd.rows map].
  apply CsvFacts.read_row.
  - destruct report; [contradiction | discriminate].
  - apply CsvFacts.read_written_rows. constructor; [| constructor].
    destruct report; [contradiction | discriminate].
Qed.

(** C4. When the report is generated, the export step offers for
    download a text that reads back, in the dialect it was written in, as
    a table of two rows: the keys of the final report and the texts of
    its values.  So every field of the final report has a column headed
    by its key whose cell holds its value: the text itself for a text
    value, the decimal numeral for an integer. *)
Theorem export_round_trip (sess : session) (report_data : Py.dict Py.value)
  (ui : page) :
  button_clicked sess generate_label = true ->
  exists buffer final table,
    export sess report_data ui = (ui ++ export_page sess buffer, inr final)
    /\ Csv.reader buffer = Some table
    /\ table = [Py.keys final; map Py.str (Py.values final)]
    /\ (forall k s, In (k, Py.Str s) final -> cell_at table k s)
    /\ (forall k z, In (k, Py.Int z) final ->
          exists cell, cell_at table k cell
                       /\ option_map Z.of_int (NilZero.int_of_string cell) = Some z).
Proof.
  intros Hclick.
  set (final :=
         Py.setitem
           (Py.setitem report_data "Model Name"
              (Py.Str (text_value sess model_name_label)))
           "Provider Name" (Py.Str (text_value sess provider_name_label))).
  exists (Pd.to_csv (Pd.DataFrame [final])), final,
    [Py.keys final; map Py.str (Py.values final)].
  split; [| split; [| split; [| split]]].
  - unfold export, text_input, button, export_page. monad_unfold.
    rewrite Hclick. cbn. now rewrite <- !app_assoc.
  - apply to_csv_reads_back, setitem_nonempty.
  - reflexivity.
  - intros k s H. destruct (field_column final k _ H) as (i & Hk & Hv).
    now exists (Py.keys final), (map Py.str (Py.values final)), i.
  - intros k z H. destruct (field_column final k _ H) as (i & Hk & Hv).
    exists (Py.str (Py.Int z)). split.
    + now exists (Py.keys final), (map Py.str (Py.values final)), i.
    + apply str_of_int_reads_back.
Qed.

Lemma export_round_trip_witness :
  exists buffer,
    export reporting_session (firstn 19 sample_report) []
    = (export_page reporting_session buffer, inr sample_report)
    /\ Csv.reader buffer
       = Some [Py.keys sample_report; map Py.str (Py.values sample_report)].
Proof.
  destruct (export_round_trip reporting_session (firstn 19 sample_report) [])
    as (buffer & final & table & He & Hr & Ht & _); [reflexivity |].
  exists buffer.
  assert (Hf : final = sample_report).
  { cbv in He. now injection He as _ <-. }
  subst final table. split; [exact He | exact Hr].
Defined.

(** * Further properties of the script *)

(** ** The whole execution *)

(** X1. On declared options an execution of the script ends in one of
    four ways, decided by the answers in this order: the out-of-scope
    stop, the not-provider stop, the below-threshold stop, or the
    [ValueError] of step 4; the page holds the questions asked up to
    there. *)
Theorem run_outcome (sess : session) :
  selects_declared sess "prelim_" preliminary_questions ->
  selects_declared sess "obligation_" baseline_obligations ->
  run sess = (fst (expected_run sess), inl (snd (expected_run sess))).
Proof.
  intros Hp Hb. unfold expected_run, not_provider, provider_page.
  destruct (String.eqb_spec (radio_choice sess "specialized_radio")
              "Yes (Specialized/Narrow)") as [Hs | Hs].
  - unfold run, script.
    rewrite (bind_value _ _ [] [Radio provider_type_label provider_type_options;
                                TextArea provider_context_label]
               (radio_choice sess provider_type_label,
                text_value sess provider_context_label)) by reflexivity.
    apply bind_halt. now apply step1_specialized.
  - unfold run, script.
    rewrite (bind_value _ _ [] [Radio provider_type_label provider_type_options;
                                TextArea provider_context_label]
               (radio_choice sess provider_type_label,
                text_value sess provider_context_label)) by reflexivity.
    rewrite (bind_value _ _ _ _ _ (step1_general sess _ Hs)).
    unfold bind at 1. rewrite step2_eval.
    destruct (String.eqb (radio_choice sess developed_label) "Third Party");
      cbn [andb negb];
      [destruct (existsb _ (mod_answers sess)); cbn [negb]; [| reflexivity] |].
    all: unfold bind at 1; rewrite (step3_eval _ _ Hp);
      destruct (spec_preliminary_score sess <? 3); [reflexivity |];
      unfold bind at 1; rewrite (step4_eval _ _ Hb); cbn [fst snd];
      f_equal; cbn [app]; now rewrite <- ?app_assoc.
Qed.

Lemma run_outcome_witness :
  run large_model_session
  = (intro_page ++ [Radio developed_label developed_options]
       ++ radios "prelim_" preliminary_questions
       ++ firstn 2 (radios "obligation_" baseline_obligations),
     inl (Raised (Py.ValueError "0 - None"))).
Proof.
  rewrite (run_outcome large_model_session); [reflexivity | declared | declared].
Defined.

(** ** Step 3 on any selection *)

(** A lookup in a score map gives the points of a declared option, and
    raises [KeyError] with the selection for anything else. *)
Lemma param_scale_lookup a :
  (In a ["< 1B"; "1B–10B"; "> 10B"]
   /\ Py.getitem param_scale_score_map a = inr (spec_param_scale_points a))
  \/ (~ In a ["< 1B"; "1B–10B"; "> 10B"]
      /\ Py.getitem param_scale_score_map a = inl (Py.KeyError a)).
Proof.
  unfold Py.getitem, spec_param_scale_points. cbn [Py.dict_get param_scale_score_map].
  rewrite !(String.eqb_sym _ a).
  destruct (String.eqb_spec a "< 1B") as [-> | H1]; [left; cbn; tauto |].
  destruct (String.eqb_spec a "1B–10B") as [-> | H2]; [left; cbn; tauto |].
  destruct (String.eqb_spec a "> 10B") as [-> | H3]; [left; cbn; tauto |].
  right. split; [| reflexivity]. cbn. intuition congruence.
Qed.

Lemma no_partly_yes_lookup a :
  (In a ["No"; "Partly"; "Yes"]
   /\ Py.getitem yes_partly_no_map a = inr (spec_no_partly_yes_points a))
  \/ (~ In a ["No"; "Partly"; "Yes"]
      /\ Py.getitem yes_partly_no_map a = inl (Py.KeyError a)).
Proof.
  unfold Py.getitem, spec_no_partly_yes_points. cbn [Py.dict_get yes_partly_no_map].
  rewrite !(String.eqb_sym _ a).
  destruct (String.eqb_spec a "No") as [-> | H1]; [left; cbn; tauto |].
  destruct (String.eqb_spec a "Partly") as [-> | H2]; [left; cbn; tauto |].
  destruct (String.eqb_spec a "Yes") as [-> | H3]; [left; cbn; tauto |].
  right. split; [| reflexivity]. cbn. intuition congruence.
Qed.

(** X2. Whatever the session holds, step 3 ends in one of three ways: it
    returns a score between 3 and 8 with the four responses, it stops
    below the threshold, or it raises [KeyError] with the selection of a
    preliminary question that is not among the options of that
    question. *)
Theorem step3_outcome (sess : session) (ui : page) :
  match snd (step3 sess ui) with
  | inr (prelim_score, responses_step3) =>
      3 <= prelim_score <= 8
      /\ responses_step3 = responses sess "prelim_" preliminary_questions
  | inl (Stopped t) => t = BelowThreshold
  | inl (Raised e) =>
      exists key question options,
        In (key, (question, options)) preliminary_questions
        /\ ~ In (radio_choice sess ("prelim_" ++ key)%string) options
        /\ e = Py.KeyError (radio_choice sess ("prelim_" ++ key)%string)
  end.
Proof.
  assert (Bad : forall key question options,
             In (key, (question, options)) preliminary_questions ->
             ~ In (radio_choice sess ("prelim_" ++ key)%string) options ->
             exists key' question' options',
               In (key', (question', options')) preliminary_questions
               /\ ~ In (radio_choice sess ("prelim_" ++ key')%string) options'
               /\ Py.KeyError (radio_choice sess ("prelim_" ++ key)%string)
                  = Py.KeyError (radio_choice sess ("prelim_" ++ key')%string))
    by (intros key question options Hin Hno; now exists key, question, options).
  unfold step3, prelim_loop, preliminary_questions.
  unfold bind at 1.
  rewrite for_each_cons, prelim_body_eval. cbn [String.eqb Ascii.eqb Bool.eqb].
  destruct (param_scale_lookup (radio_choice sess ("prelim_" ++ "param_scale")%string))
    as [[I1 ->] | [N1 ->]];
    [| cbn [snd]; eapply Bad; [| exact N1]; cbn; tauto].
  rewrite for_each_cons, prelim_body_eval. cbn [String.eqb Ascii.eqb Bool.eqb].
  destruct (no_partly_yes_lookup (radio_choice sess ("prelim_" ++ "training_scope")%string))
    as [[I2 ->] | [N2 ->]];
    [| cbn [snd]; eapply Bad; [| exact N2]; cbn; tauto].
  rewrite for_each_cons, prelim_body_eval. cbn [String.eqb Ascii.eqb Bool.eqb].
  destruct (no_partly_yes_lookup (radio_choice sess ("prelim_" ++ "broad_ability")%string))
    as [[I3 ->] | [N3 ->]];
    [| cbn [snd]; eapply Bad; [| exact N3]; cbn; tauto].
  rewrite for_each_cons, prelim_body_eval. cbn [String.eqb Ascii.eqb Bool.eqb].
  destruct (no_partly_yes_lookup (radio_choice sess ("prelim_" ++ "generative_cap")%string))
    as [[I4 ->] | [N4 ->]];
    [| cbn [snd]; eapply Bad; [| exact N4]; cbn; tauto].
  cbn [for_each ret].
  pose proof (spec_param_scale_points_range
                (radio_choice sess ("prelim_" ++ "param_scale")%string)).
  pose proof (spec_no_partly_yes_points_range
                (radio_choice sess ("prelim_" ++ "training_scope")%string)).
  pose proof (spec_no_partly_yes_points_range
                (radio_choice sess ("prelim_" ++ "broad_ability")%string)).
  pose proof (spec_no_partly_yes_points_range
                (radio_choice sess ("prelim_" ++ "generative_cap")%string)).
  cbn [String.append] in *.
  match goal with |- context [?p <? 3] => destruct (Z.ltb_spec p 3) end;
    unfold stop, ret; cbn [snd]; [reflexivity |].
  split; [lia | reflexivity].
Qed.

(** ** Step 5 on declared options *)

Ltac systemic_cases H :=
  let H' := fresh in
  pose proof H as H';
  unfold selects_declared, systemic_questions in H'; split_forall;
  cbn [String.append] in *; split_in;
  unfold spec_systemic_score, affirmative in *; use_choices;
  cbn [String.eqb Ascii.eqb Bool.eqb orb Z.add Z.gtb Z.compare Pos.compare
       Pos.compare_cont Pos.add] in *.

(** X3. On declared options step 5 returns a systemic score between 0
    and 4 and a classification that is Yes or No.  From three indicators
    on the classification is Yes and the override question is not asked;
    with no indicator it is No and the override question is not asked. *)
Theorem systemic_score_extremes (sess : session) (ui : page) :
  selects_declared sess "sys_" systemic_questions ->
  exists ui' classification,
    step5 sess ui
    = (ui', inr (spec_systemic_score sess,
                 responses sess "sys_" systemic_questions, classification))
    /\ 0 <= spec_systemic_score sess <= 4
    /\ (classification = "Yes" \/ classification = "No")
    /\ (3 <= spec_systemic_score sess ->
        classification = "Yes" /\ ui' = ui ++ radios "sys_" systemic_questions)
    /\ (spec_systemic_score sess = 0 ->
        classification = "No" /\ ui' = ui ++ radios "sys_" systemic_questions).
Proof.
  intros H. rewrite (step5_eval sess ui H). cbv zeta.
  systemic_cases H;
    try (destruct (String.eqb (radio_choice sess "borderline_sysrisk")
                     "Yes - High Impact/Systemic"));
    eexists; eexists; (split; [reflexivity |]);
    repeat apply conj; try lia; try tauto; intros; try lia; split; reflexivity.
Qed.

Lemma systemic_score_extremes_witness :
  exists ui' classification,
    step5 single_indicator_session []
    = (ui', inr (1, responses single_indicator_session "sys_" systemic_questions,
                 classification))
    /\ (classification = "Yes" \/ classification = "No").
Proof.
  destruct (systemic_score_extremes single_indicator_session [])
    as (ui' & c & He & _ & Hc & _); [declared |].
  now exists ui', c.
Defined.

(** X4. On declared options the override question is asked exactly when
    mass deployment and harmful scaffolding are both answered Yes while
    the compute threshold and the state of the art are both answered
    No. *)
Theorem override_asked_iff (sess : session) :
  selects_declared sess "sys_" systemic_questions ->
  In (Radio "borderline_sysrisk" final_risk_options) (fst (step5 sess []))
  <-> (radio_choice sess "sys_flop_threshold" = "No"
       /\ radio_choice sess "sys_sota_advancement" = "No"
       /\ radio_choice sess "sys_mass_deployment" = "Yes"
       /\ radio_choice sess "sys_harmful_scaffolding" = "Yes").
Proof.
  intros H. rewrite (step5_eval sess [] H). cbv zeta.
  systemic_cases H; cbn; split; intros K;
    repeat match goal with
           | K : _ \/ _ |- _ => destruct K as [K | K]
           | K : _ /\ _ |- _ => destruct K as [? K]
           end;
    try discriminate; try contradiction; try congruence; tauto.
Qed.

Lemma override_asked_iff_witness :
  In (Radio "borderline_sysrisk" final_risk_options)
     (fst (step5 (borderline_session "No - Not Systemic") [])).
Proof.
  apply (override_asked_iff (borderline_session "No - Not Systemic"));
    [declared | repeat split].
Defined.

(** ** Dictionaries and the report on any records of responses *)

Lemma dict_get_setitem {V} (d : Py.dict V) k v k' :
  Py.dict_get (Py.setitem d k v) k'
  = if String.eqb k k' then Some v else Py.dict_get d k'.
Proof.
  induction d as [| [k0 v0] d IH]; cbn; [reflexivity |].
  destruct (String.eqb_spec k0 k) as [-> | Hk]; cbn.
  - now destruct (String.eqb k k').
  - rewrite IH. destruct (String.eqb_spec k0 k') as [-> | Hk'].
    + now rewrite (proj2 (String.eqb_neq k k')) by congruence.
    + reflexivity.
Qed.

Lemma dict_get_absent {V} (d : Py.dict V) k :
  ~ In k (Py.keys d) -> Py.dict_get d k = None.
Proof.
  induction d as [| [k0 v0] d IH]; cbn; [reflexivity |].
  intros H. destruct (String.eqb_spec k0 k) as [-> | Hk]; [tauto |].
  apply IH. tauto.
Qed.

Lemma keys_setitem {V} (d : Py.dict V) k v :
  (In k (Py.keys d) -> Py.keys (Py.setitem d k v) = Py.keys d)
  /\ (~ In k (Py.keys d) -> Py.keys (Py.setitem d k v) = Py.keys d ++ [k]).
Proof.
  unfold Py.keys.
  induction d as [| [k0 v0] d [IH1 IH2]]; cbn; [tauto |].
  destruct (String.eqb_spec k0 k) as [-> | Hk]; cbn.
  - tauto.
  - split; intros H.
    + rewrite IH1; [reflexivity |]. destruct H; [contradiction | assumption].
    + rewrite IH2; [reflexivity |]. tauto.
Qed.

(** An assignment keeps the keys of a dictionary distinct. *)
Lemma setitem_keys_distinct {V} (d : Py.dict V) k v :
  NoDup (Py.keys d) -> NoDup (Py.keys (Py.setitem d k v)).
Proof.
  intros H. destruct (in_dec string_dec k (Py.keys d)) as [Hin | Hout].
  - now rewrite (proj1 (keys_setitem d k v) Hin).
  - rewrite (proj2 (keys_setitem d k v) Hout).
    apply NoDup_app; [assumption | repeat constructor; cbn; tauto |].
    intros x Hx [<- | []]. contradiction.
Qed.

Lemma merge_responses_keys_distinct prefix r d :
  NoDup (Py.keys d) -> NoDup (Py.keys (merge_responses prefix r d)).
Proof.
  unfold merge_responses. revert d.
  induction r as [| [k v] r IH]; intros d H; cbn; [assumption |].
  apply IH. now apply setitem_keys_distinct.
Qed.

Lemma append_cancel (prefix a b : string) :
  (prefix ++ a)%string = (prefix ++ b)%string -> a = b.
Proof. induction prefix as [| c prefix IH]; cbn; [auto | intros [= H]; auto]. Qed.

(** A key outside the prefix is left alone by the merge. *)
Lemma merge_responses_other prefix r d key :
  (forall k, key <> (prefix ++ k)%string) ->
  Py.dict_get (merge_responses prefix r d) key = Py.dict_get d key.
Proof.
  intros Hkey. unfold merge_responses. revert d.
  induction r as [| [k v] r IH]; intros d; cbn; [reflexivity |].
  rewrite IH, dict_get_setitem.
  destruct (String.eqb_spec (prefix ++ k)%string key) as [E | _]; [| reflexivity].
  symmetry in E. now apply Hkey in E.
Qed.

(** A key under the prefix holds the response recorded for it. *)
Lemma merge_responses_prefixed prefix r d k :
  NoDup (Py.keys r) ->
  Py.dict_get (merge_responses prefix r d) (prefix ++ k)%string
  = match Py.dict_get r k with
    | Some v => Some (Py.Str v)
    | None => Py.dict_get d (prefix ++ k)%string
    end.
Proof.
  unfold merge_responses. revert d.
  induction r as [| [k0 v0] r IH]; intros d Hr; cbn; [reflexivity |].
  inversion Hr as [| ? ? Hout Hr']; subst.
  rewrite (IH _ Hr'), dict_get_setitem.
  destruct (String.eqb_spec k0 k) as [-> | Hk].
  - rewrite (dict_get_absent r k Hout). now rewrite String.eqb_refl.
  - destruct (Py.dict_get r k); [reflexivity |].
    destruct (String.eqb_spec (prefix ++ k0)%string (prefix ++ k)%string) as [E | _];
      [| reflexivity].
    apply append_cancel in E. contradiction.
Qed.

Ltac other_prefix :=
  let k := fresh in let E := fresh in
  intros k E; cbn in E; congruence.

(** X5. Whatever keys the three records of responses have (distinct
    within each record), the report step 7 returns holds each of its
    seven fixed fields and the two names under their keys, and holds
    under each key made of a step prefix and a question key the response
    recorded for that question, and nothing when there is none: no
    response overwrites a score, a classification or a name, and the
    three steps do not overwrite each other. *)
Theorem report_lookup (sess : session)
  (provider_type justification specialized : string) (prelim_score baseline_score : Z)
  (systemic_classification compliance_status : string)
  (responses_step3 obligation_responses systemic_responses : Py.dict string)
  (ui : page) :
  NoDup (Py.keys responses_step3) ->
  NoDup (Py.keys obligation_responses) ->
  NoDup (Py.keys systemic_responses) ->
  exists report,
    snd (step7 sess provider_type justification specialized prelim_score
           baseline_score systemic_classification compliance_status
           responses_step3 obligation_responses systemic_responses ui)
    = inr report
    /\ map (Py.dict_get report)
         [ "Provider Type (Recital 109)"; "Provider Justification";
           "Specialized Model Step1"; "Preliminary Score"; "Baseline Score";
           "Systemic Risk? (Article 51)"; "Overall Compliance Status";
           "Model Name"; "Provider Name" ]
       = map Some
           [ Py.Str provider_type; Py.Str justification; Py.Str specialized;
             Py.Int prelim_score; Py.Int baseline_score;
             Py.Str systemic_classification; Py.Str compliance_status;
             Py.Str (text_value sess model_name_label);
             Py.Str (text_value sess provider_name_label) ]
    /\ (forall k, Py.dict_get report ("Step3_" ++ k)%string
                  = option_map Py.Str (Py.dict_get responses_step3 k))
    /\ (forall k, Py.dict_get report ("Step4_" ++ k)%string
                  = option_map Py.Str (Py.dict_get obligation_responses k))
    /\ (forall k, Py.dict_get report ("Step5_" ++ k)%string
                  = option_map Py.Str (Py.dict_get systemic_responses k)).
Proof.
  intros H3 H4 H5.
  eexists. split.
  { unfold step7, export, text_input, button. monad_unfold.
    destruct (button_clicked sess generate_label); reflexivity. }
  unfold report_base. cbv zeta.
  split; [| split; [| split]].
  - cbn [map]. rewrite !dict_get_setitem.
    cbn [String.eqb Ascii.eqb Bool.eqb].
    rewrite !merge_responses_other by other_prefix.
    reflexivity.
  - intros k. rewrite !dict_get_setitem. cbn [String.eqb Ascii.eqb Bool.eqb String.append].
    change (String "S" (String "t" (String "e" (String "p" (String "3" (String "_" k))))))
      with ("Step3_" ++ k)%string.
    rewrite !merge_responses_other by other_prefix.
    rewrite (merge_responses_prefixed _ _ _ _ H3).
    now destruct (Py.dict_get responses_step3 k).
  - intros k. rewrite !dict_get_setitem. cbn [String.eqb Ascii.eqb Bool.eqb String.append].
    change (String "S" (String "t" (String "e" (String "p" (String "4" (String "_" k))))))
      with ("Step4_" ++ k)%string.
    rewrite !merge_responses_other by other_prefix.
    rewrite (merge_responses_prefixed _ _ _ _ H4).
    destruct (Py.dict_get obligation_responses k); [reflexivity |].
    rewrite !merge_responses_other by other_prefix.
    reflexivity.
  - intros k. rewrite !dict_get_setitem. cbn [String.eqb Ascii.eqb Bool.eqb String.append].
    change (String "S" (String "t" (String "e" (String "p" (String "5" (String "_" k))))))
      with ("Step5_" ++ k)%string.
    rewrite (merge_responses_prefixed _ _ _ _ H5).
    destruct (Py.dict_get systemic_responses k); [reflexivity |].
    rewrite !merge_responses_other by other_prefix.
    reflexivity.
Qed.

Lemma report_lookup_witness :
  exists report,
    snd (step7 reporting_session "SME or startup" "Small team"
           "No (Potentially General-Purpose)" 5 4 "No" provisional_text
           custom_step3 custom_step4 custom_step5 [])
    = inr report
    /\ Py.dict_get report "Step3_param_scale" = Some (Py.Str "> 10B")
    /\ Py.dict_get report "Step3_Model Name" = Some (Py.Str "a")
    /\ Py.dict_get report "Step4_param_scale" = None
    /\ Py.dict_get report "Step5_param_scale" = Some (Py.Str "Yes").
Proof.
  destruct (report_lookup reporting_session "SME or startup" "Small team"
              "No (Potentially General-Purpose)" 5 4 "No" provisional_text
              custom_step3 custom_step4 custom_step5 [])
    as (report & He & _ & H3 & H4 & H5);
    try (repeat constructor; cbn; intuition discriminate).
  exists report. split; [exact He |].
  split; [exact (H3 "param_scale") |].
  split; [exact (H3 "Model Name") |].
  split; [exact (H4 "param_scale") | exact (H5 "param_scale")].
Defined.

(** X6. Whatever the records of responses hold, the keys of the report
    step 7 returns are distinct: the exported table has no two columns
    with the same header. *)
Theorem report_keys_distinct (sess : session)
  (provider_type justification specialized : string) (prelim_score baseline_score : Z)
  (systemic_classification compliance_status : string)
  (responses_step3 obligation_responses systemic_responses : Py.dict string)
  (ui : page) :
  exists report,
    snd (step7 sess provider_type justification specialized prelim_score
           baseline_score systemic_classification compliance_status
           responses_step3 obligation_responses systemic_responses ui)
    = inr report
    /\ NoDup (Py.keys report).
Proof.
  eexists. split.
  { unfold step7, export, text_input, button. monad_unfold.
    destruct (button_clicked sess generate_label); reflexivity. }
  do 2 apply setitem_keys_distinct.
  unfold report_base. cbv zeta.
  do 3 apply merge_responses_keys_distinct.
  repeat constructor; cbn; intuition discriminate.
Qed.

(** ** The export step on any report *)

(** X7. The export step sets the two name fields and leaves every other
    field of the report it is given as it was; it renders the two text
    inputs and the button, and the download button after them exactly
    when the button is clicked, with the table of the final report as
    data and a file name made of the model name. *)
Theorem export_fields (sess : session) (report_data : Py.dict Py.value) (ui : page) :
  exists final,
    snd (export sess report_data ui) = inr final
    /\ Py.dict_get final "Model Name"
       = Some (Py.Str (text_value sess model_name_label))
    /\ Py.dict_get final "Provider Name"
       = Some (Py.Str (text_value sess provider_name_label))
    /\ (forall k, k <> "Model Name" -> k <> "Provider Name" ->
                  Py.dict_get final k = Py.dict_get report_data k)
    /\ fst (export sess report_data ui)
       = ui ++ (if button_clicked sess generate_label
                then export_page sess (Pd.to_csv (Pd.DataFrame [final]))
                else firstn 3 (export_page sess EmptyString)).
Proof.
  eexists. split.
  { unfold export, text_input, button. monad_unfold.
    destruct (button_clicked sess generate_label); reflexivity. }
  split; [| split; [| split]].
  - rewrite !dict_get_setitem. reflexivity.
  - rewrite !dict_get_setitem. reflexivity.
  - intros k Hm Hp. rewrite !dict_get_setitem.
    apply not_eq_sym, String.eqb_neq in Hm, Hp. now rewrite Hm, Hp.
  - unfold export, text_input, button, export_page. monad_unfold.
    destruct (button_clicked sess generate_label); cbn; now rewrite <- !app_assoc.
Qed.

Lemma export_fields_witness :
  exists final,
    snd (export reporting_session sample_report []) = inr final
    /\ Py.dict_get final "Baseline Score" = Some (Py.Int 4).
Proof.
  destruct (export_fields reporting_session sample_report [])
    as (final & He & _ & _ & Hk & _).
  exists final. split; [exact He |].
  rewrite Hk; [reflexivity | discriminate | discriminate].
Defined.

(** ** The loops on any dictionary of questions *)

Lemma setitem_fresh {V} (d : Py.dict V) k v :
  ~ In k (Py.keys d) -> Py.setitem d k v = d ++ [(k, v)].
Proof.
  unfold Py.keys. induction d as [| [k0 v0] d IH]; cbn; [reflexivity |].
  intros H. destruct (String.eqb_spec k0 k) as [-> | Hk]; [tauto |].
  rewrite IH; [reflexivity | tauto].
Qed.

Lemma yes_count_range sess prefix questions :
  0 <= yes_count sess prefix questions <= Z.of_nat (length questions).
Proof.
  induction questions as [| [key x] questions IH]; cbn [yes_count length]; [lia |].
  unfold affirmative. destruct (String.eqb _ "Yes"); lia.
Qed.

(** X8. Over any dictionary of questions whose keys are distinct and new
    to the responses recorded so far, with every selection Yes or No,
    the systemic loop renders one radio per question in order, adds the
    number of Yes selections to the score (at most one per question) and
    appends one response per question, in order. *)
Theorem systemic_loop_general (sess : session)
  (questions : Py.dict (string * list string))
  (score : Z) (resp : Py.dict string) (ui : page) :
  NoDup (Py.keys resp ++ Py.keys questions) ->
  Forall (fun '(key, _) =>
            In (radio_choice sess ("sys_" ++ key)%string) ["No"; "Yes"]) questions ->
  systemic_loop sess questions (score, resp) ui
  = (ui ++ radios "sys_" questions,
     inr (score + yes_count sess "sys_" questions,
          resp ++ responses sess "sys_" questions))
  /\ 0 <= yes_count sess "sys_" questions <= Z.of_nat (length questions).
Proof.
  intros Hkeys Hsel. split; [| apply yes_count_range].
  unfold systemic_loop. revert score resp ui Hkeys.
  induction Hsel as [| [key [question options]] questions Hkey _ IH];
    intros score resp ui Hkeys.
  - cbn. now rewrite !app_nil_r, Z.add_0_r.
  - rewrite for_each_cons, systemic_body_eval, (yes_no_points _ Hkey).
    cbn [Py.keys map fst] in Hkeys.
    assert (Hfresh : ~ In key (Py.keys resp)).
    { intros Hin. apply NoDup_remove_2 in Hkeys.
      apply Hkeys, in_or_app. now left. }
    rewrite (setitem_fresh resp key _ Hfresh), IH.
    + cbn [radios responses map yes_count].
      rewrite <- !app_assoc, Z.add_assoc. reflexivity.
    + unfold Py.keys in *. rewrite map_app. cbn [map fst].
      rewrite <- app_assoc. exact Hkeys.
Qed.

Lemma systemic_loop_general_witness :
  systemic_loop custom_session custom_questions (0, []) []
  = ([Radio "sys_first" ["No"; "Yes"]; Radio "sys_second" ["No"; "Yes"; "Maybe"]],
     inr (1, [("first", "Yes"); ("second", "No")])).
Proof.
  apply (systemic_loop_general custom_session custom_questions 0 [] []).
  - repeat constructor; cbn; intuition discriminate.
  - repeat constructor; cbn; tauto.
Defined.

(** X9. Over any dictionary of obligations, when the labels selected for
    the questions before some question all parse and the label selected
    for that question does not, the baseline loop renders the radios up
    to and including that question and raises the exception of that
    label; the questions after it are not asked. *)
Theorem baseline_loop_first_failure (sess : session)
  (before after : Py.dict (string * list string))
  (key question : string) (options : list string)
  (score : Z) (resp : Py.dict string) (ui : page) (e : Py.exn) :
  Forall (fun '(k, _) =>
            exists n, numeric_val (radio_choice sess ("obligation_" ++ k)%string)
                      = inr n) before ->
  numeric_val (radio_choice sess ("obligation_" ++ key)%string) = inl e ->
  baseline_loop sess (before ++ (key, (question, options)) :: after) (score, resp) ui
  = (ui ++ radios "obligation_" (before ++ [(key, (question, options))]),
     inl (Raised e)).
Proof.
  intros Hbefore Hfail. unfold baseline_loop. revert score resp ui.
  induction Hbefore as [| [k [q o]] before [n Hn] _ IH]; intros score resp ui.
  - cbn [app]. now rewrite for_each_cons, baseline_body_eval, Hfail.
  - cbn [app]. rewrite for_each_cons, baseline_body_eval, Hn, IH.
    cbn [radios map app]. now rewrite <- app_assoc.
Qed.

Lemma baseline_loop_first_failure_witness :
  baseline_loop custom_session custom_questions (0, []) []
  = ([Radio "obligation_first" ["No"; "Yes"];
      Radio "obligation_second" ["No"; "Yes"; "Maybe"]],
     inl (Raised (Py.ValueError "2 - Full"))).
Proof.
  apply (baseline_loop_first_failure custom_session
           [("first", ("First question?", ["No"; "Yes"]))] []
           "second" "Second question?" ["No"; "Yes"; "Maybe"] 0 [] []).
  - repeat constructor. now exists 1.
  - reflexivity.
Defined.

(** ** The extraction of line 225 on any label *)

Lemma split_nonempty sep s : Py.split sep s <> [].
Proof.
  destruct s as [| c s]; cbn; [discriminate |].
  destruct (Ascii.eqb c sep); [discriminate |].
  destruct (Py.split sep s); discriminate.
Qed.

Lemma split_without sep s : contains sep s = false -> Py.split sep s = [s].
Proof.
  induction s as [| c s IH]; cbn; [reflexivity |].
  intros H. apply orb_false_elim in H as [Hc Hs].
  now rewrite Hc, (IH Hs).
Qed.

(** Splitting around one more separator. *)
Lemma split_app sep a b :
  Py.split sep (a ++ String sep b) = Py.split sep a ++ Py.split sep b.
Proof.
  induction a as [| c a IH]; cbn [String.append Py.split].
  - now rewrite Ascii.eqb_refl.
  - destruct (Ascii.eqb c sep); [now rewrite IH |].
    rewrite IH. pose proof (split_nonempty sep a) as Hne.
    now destruct (Py.split sep a).
Qed.

Lemma last_item_app l1 l2 :
  l2 <> [] -> Py.last_item (l1 ++ l2) = Py.last_item l2.
Proof.
  intros H. induction l1 as [| x l1 IH]; [reflexivity |].
  cbn [app Py.last_item]. rewrite <- IH.
  destruct (l1 ++ l2) eqn:E; [| reflexivity].
  apply app_eq_nil in E as [_ E]. contradiction.
Qed.

(** X10. When a label ends with a parenthesised group, followed by text
    without an opening parenthesis, line 225 passes to [int] exactly the
    text of that last group, whatever precedes it. *)
Theorem numeric_val_last_group (before inner after : string) :
  contains "("%char inner = false ->
  contains ")"%char inner = false ->
  contains "("%char after = false ->
  numeric_val (before ++ String "(" (inner ++ String ")" after)) = Py.int inner.
Proof.
  intros Hopen Hclose Hafter. unfold numeric_val.
  rewrite split_app, last_item_app by apply split_nonempty.
  rewrite split_without.
  - cbn [Py.last_item]. rewrite split_app, (split_without _ inner Hclose).
    reflexivity.
  - clear Hclose. induction inner as [| c inner IH]; cbn in *.
    + exact Hafter.
    + apply orb_false_elim in Hopen as [-> Hopen]. now apply IH.
Qed.

Lemma numeric_val_last_group_witness :
  numeric_val "Policy (draft) in place (2) today" = Py.int "2".
Proof.
  apply (numeric_val_last_group "Policy (draft) in place " "2" " today");
    reflexivity.
Defined.

(** X11. A label that holds no parenthesis is passed whole to [int];
    the loop gets its value only when the whole label is a number. *)
Theorem numeric_val_plain (label : string) :
  contains "("%char label = false ->
  contains ")"%char label = false ->
  numeric_val label = Py.int label.
Proof.
  intros Hopen Hclose. unfold numeric_val.
  rewrite (split_without _ label Hopen). cbn [Py.last_item].
  now rewrite (split_without _ label Hclose).
Qed.

Lemma numeric_val_plain_witness :
  numeric_val " 2 " = inr 2
  /\ numeric_val "2 - Comprehensive summary"
     = inl (Py.ValueError "2 - Comprehensive summary").
Proof.
  split.
  - rewrite (numeric_val_plain " 2 "); reflexivity.
  - rewrite (numeric_val_plain "2 - Comprehensive summary"); reflexivity.
Defined.

(** X12. Line 225 raises nothing but [ValueError]: the two splits are
    never empty, so neither index is out of range. *)
Theorem numeric_val_raises_value_error (label : string) (e : Py.exn) :
  numeric_val label = inl e -> exists literal, e = Py.ValueError literal.
Proof.
  unfold numeric_val.
  pose proof (split_nonempty "("%char label) as H1.
  destruct (Py.split "("%char label) as [| x l] eqn:E1; [contradiction |].
  assert (Hlast : exists tail, Py.last_item (x :: l) = inr tail).
  { clear. revert x. induction l as [| y l IH]; intros x; [now exists x |].
    destruct (IH y) as [t Ht]. exists t.
    change (Py.last_item (x :: y :: l)) with (Py.last_item (y :: l)). exact Ht. }
  destruct Hlast as [tail ->].
  pose proof (split_nonempty ")"%char tail) as H2.
  destruct (Py.split ")"%char tail) as [| inner l']; [contradiction |].
  cbn [Py.first_item]. unfold Py.int.
  destruct (match Py.strip inner with EmptyString => _ | String _ _ => _ end);
    [destruct (_ <? _)%N; [| discriminate] |];
    intros [= <-]; now exists inner.
Qed.

Lemma numeric_val_raises_value_error_witness :
  numeric_val "0 - (None)" = inl (Py.ValueError "None")
  /\ exists literal, Py.ValueError "None" = Py.ValueError literal.
Proof.
  split; [reflexivity |].
  apply (numeric_val_raises_value_error "0 - (None)" (Py.ValueError "None")).
  reflexivity.
Defined.

(** ** Integers through [str] and [int] *)

Lemma lstrip_spaceless s : spaceless s = true -> Py.lstrip s = s.
Proof.
  destruct s as [| c s]; cbn; [reflexivity |].
  intros H. apply andb_prop in H as [Hc _].
  now destruct (Py.is_space c).
Qed.

Lemma rev_string_spaceless s acc :
  spaceless s = true -> spaceless acc = true ->
  spaceless (Py.rev_string s acc) = true.
Proof.
  revert acc. induction s as [| c s IH]; intros acc Hs Hacc; cbn; [assumption |].
  cbn in Hs. apply andb_prop in Hs as [Hc Hs].
  apply IH; [assumption |]. cbn. now rewrite Hc.
Qed.

Lemma rev_string_twice s acc acc' :
  Py.rev_string (Py.rev_string s acc) acc' = Py.rev_string acc (s ++ acc')%string.
Proof.
  revert acc acc'. induction s as [| c s IH]; intros acc acc'; cbn; [reflexivity |].
  now rewrite IH.
Qed.

(** Text without whitespace is left alone by [strip]. *)
Lemma strip_spaceless s : spaceless s = true -> Py.strip s = s.
Proof.
  intros H. unfold Py.strip. rewrite (lstrip_spaceless s H).
  rewrite lstrip_spaceless by now apply rev_string_spaceless.
  rewrite rev_string_twice. cbn. apply CsvFacts.append_empty.
Qed.

Lemma digits_spaceless d : spaceless (NilEmpty.string_of_uint d) = true.
Proof. induction d; cbn; auto. Qed.

Lemma digits_without d c :
  Py.digit_val c = None -> contains c (NilEmpty.string_of_uint d) = false.
Proof.
  intros Hc. induction d; cbn [NilEmpty.string_of_uint contains]; [reflexivity | ..];
    rewrite IHd, orb_false_r;
    match goal with
    | |- Ascii.eqb ?x c = false =>
        destruct (Ascii.eqb_spec x c) as [<- |]; [discriminate Hc | reflexivity]
    end.
Qed.

Lemma digits_from_positive d acc :
  Py.digits (NilEmpty.string_of_uint d) false (Z.pos acc)
  = Some (Z.pos (Pos.of_uint_acc d acc)).
Proof.
  revert acc.
  induction d; intros acc; cbn [NilEmpty.string_of_uint Py.digits Pos.of_uint_acc];
    [reflexivity | ..];
    match goal with
    | |- context [Py.digit_val ?c] =>
        change (Ascii.eqb c "_"%char) with false;
        let v := eval vm_compute in (Py.digit_val c) in
        change (Py.digit_val c) with v
    end;
    cbv iota; rewrite <- IHd; f_equal; lia.
Qed.

Lemma digits_from_zero d :
  Py.digits (NilEmpty.string_of_uint d) false 0 = Some (Z.of_N (Pos.of_uint d)).
Proof.
  induction d; cbn [NilEmpty.string_of_uint Py.digits Pos.of_uint];
    [reflexivity | ..];
    match goal with
    | |- context [Py.digit_val ?c] =>
        change (Ascii.eqb c "_"%char) with false;
        let v := eval vm_compute in (Py.digit_val c) in
        change (Py.digit_val c) with v
    end;
    cbv iota; first [exact IHd | apply digits_from_positive].
Qed.

(** The first digit may follow a sign or the start of the text. *)
Lemma digits_start d acc :
  d <> Decimal.Nil ->
  Py.digits (NilEmpty.string_of_uint d) true acc
  = Py.digits (NilEmpty.string_of_uint d) false acc.
Proof. destruct d; [contradiction | ..]; reflexivity. Qed.

Lemma digits_of_positive p :
  Py.digits (NilEmpty.string_of_uint (Pos.to_uint p)) true 0 = Some (Z.pos p).
Proof.
  rewrite digits_start by apply DecimalPos.Unsigned.to_uint_nonnil.
  now rewrite digits_from_zero, DecimalPos.Unsigned.of_to.
Qed.

Lemma str_of_positive p :
  Py.str_of_int (Z.pos p) = NilEmpty.string_of_uint (Pos.to_uint p)
  /\ Py.str_of_int (Z.neg p) = String "-" (NilEmpty.string_of_uint (Pos.to_uint p)).
Proof.
  unfold Py.str_of_int. cbn [Z.to_int NilZero.string_of_int].
  unfold NilZero.string_of_uint.
  pose proof (DecimalPos.Unsigned.to_uint_nonnil p) as H.
  now destruct (Pos.to_uint p).
Qed.

Lemma digit_count_digits d :
  Py.digit_count (NilEmpty.string_of_uint d)
  = N.of_nat (String.length (NilEmpty.string_of_uint d)).
Proof.
  induction d; cbn [NilEmpty.string_of_uint Py.digit_count String.length];
    [reflexivity | ..];
    match goal with
    | |- context [Py.digit_val ?c] =>
        let v := eval vm_compute in (Py.digit_val c) in
        change (Py.digit_val c) with v
    end;
    cbv iota; rewrite IHd; lia.
Qed.

(** [int(str(z))] is [z], within the limit on the digits. *)
Lemma int_of_str (z : Z) :
  (Py.digit_count (Py.str_of_int z) <= Py.max_str_digits)%N ->
  Py.int (Py.str_of_int z) = inr z.
Proof.
  intros Hlimit. apply N.ltb_ge in Hlimit.
  destruct z as [| p | p]; [reflexivity | |];
    destruct (str_of_positive p) as [Hpos Hneg].
  - rewrite Hpos in *. unfold Py.int.
    rewrite strip_spaceless by apply digits_spaceless.
    rewrite Hlimit.
    pose proof (digits_of_positive p) as Hd.
    pose proof (DecimalPos.Unsigned.to_uint_nonnil p) as Hn.
    destruct (Pos.to_uint p); [contradiction | ..];
      cbn [NilEmpty.string_of_uint] in *;
      match goal with
      | |- context [Ascii.eqb ?c "+"%char] =>
          change (Ascii.eqb c "+"%char) with false;
          change (Ascii.eqb c "-"%char) with false
      end;
      cbv iota; now rewrite Hd.
  - rewrite Hneg in *. unfold Py.int.
    rewrite strip_spaceless by (cbn; apply digits_spaceless).
    rewrite Hlimit.
    change (Ascii.eqb "-" "+") with false. change (Ascii.eqb "-" "-") with true.
    cbv iota. now rewrite digits_of_positive.
Qed.

(** Beyond the limit [int] raises, whatever the digits are. *)
Lemma int_beyond_limit (s : string) :
  (Py.max_str_digits < Py.digit_count (Py.strip s))%N ->
  Py.int s = inl (Py.ValueError s).
Proof.
  intros H. apply N.ltb_lt in H. unfold Py.int. rewrite H.
  now destruct (match Py.strip s with EmptyString => _ | String _ _ => _ end).
Qed.

(** X13. A label that ends with the decimal text of an integer between
    parentheses gives that integer, whatever text precedes it, as long
    as the integer has no more digits than [int] and [str] convert: the
    convention of the technical-documentation labels works for every
    such value. *)
Theorem numeric_val_of_int (before : string) (z : Z) :
  (Py.digit_count (Py.str_of_int z) <= Py.max_str_digits)%N ->
  numeric_val (before ++ String "(" (Py.str_of_int z ++ String ")" EmptyString))
  = inr z.
Proof.
  intros Hlimit.
  assert (Hdigits : forall c, Py.digit_val c = None -> c <> "-"%char ->
                              contains c (Py.str_of_int z) = false).
  { intros c Hc Hminus. destruct z as [| p | p].
    - change (Py.str_of_int 0) with "0". cbn [contains].
      destruct (Ascii.eqb_spec "0"%char c) as [<- | _];
        [discriminate Hc | reflexivity].
    - rewrite (proj1 (str_of_positive p)). now apply digits_without.
    - rewrite (proj2 (str_of_positive p)). cbn [contains].
      rewrite digits_without by assumption.
      destruct (Ascii.eqb_spec "-"%char c) as [<- |]; [contradiction | reflexivity]. }
  rewrite numeric_val_last_group.
  - now apply int_of_str.
  - apply Hdigits; [reflexivity | discriminate].
  - apply Hdigits; [reflexivity | discriminate].
  - reflexivity.
Qed.

Lemma numeric_val_of_int_witness :
  numeric_val "Fully in place (-105)" = inr (-105).
Proof.
  apply (numeric_val_of_int "Fully in place " (-105)). discriminate.
Defined.
